(** * The CDC consumer service, embedded in Rocq

    The consumer reads change events from a Kafka topic, normalises each
    payload into a change record ([processDatabaseChange]), logs one
    structured entry per message ([processMessage]), starts with a bounded
    retry loop ([startConsumer]), shuts down on SIGTERM / SIGINT and answers
    a health probe.

    The embedding is shallow: JavaScript values are an inductive type,
    and every function of the source becomes a computation in a small
    monad that threads a state and distinguishes the three ways a piece of
    JavaScript can complete: normally, by a thrown error, or by
    [process.exit]. *)

From Stdlib Require Import String Ascii List ZArith Bool Lia SpecFloat DecimalString.
From Stdlib Require Strings.Byte.
From ExtLib Require Import Structures.Monad Structures.MonadState Structures.MonadExc.
Import ListNotations.
Import MonadNotation.
Local Open Scope string_scope.
Local Open Scope monad_scope.
Set Warnings "-register-all".

(** ** JavaScript values *)

Module Js.

(** A Number is an IEEE-754 double; [spec_float] is the Standard Library's
    inductive description of such a number. *)
Definition number := spec_float.

(** The integer [n] as a Number. *)
Definition num_of_nat (n : nat) : number :=
  match n with
  | O => S754_zero false
  | S _ => S754_finite false (Pos.of_nat n) 0
  end.

(** What [JSON.parse] returns, together with [undefined] (the result of
    reading a property that is not there).  An object is the list of its
    own properties, in insertion order. *)
Inductive value : Type :=
| VUndefined
| VNull
| VBool (b : bool)
| VNum (n : number)
| VStr (s : string)
| VArr (elems : list value)
| VObj (props : list (string * value)).

(** An error object: its constructor name and its [message]. *)
Record JsError : Type := mkError { err_name : string; message : string }.

Definition TypeError (m : string) : JsError := mkError "TypeError" m.
Definition Error (m : string) : JsError := mkError "Error" m.

(** ToBoolean. *)
Definition truthy (v : value) : bool :=
  match v with
  | VUndefined | VNull => false
  | VBool b => b
  | VNum (S754_zero _) | VNum S754_nan => false
  | VNum _ => true
  | VStr s => negb (String.eqb s EmptyString)
  | VArr _ | VObj _ => true
  end.

Definition is_undefined (v : value) : bool :=
  match v with VUndefined => true | _ => false end.

(** [null] and [undefined] are the two values a property cannot be read
    from. *)
Definition nullish (v : value) : bool :=
  match v with VUndefined | VNull => true | _ => false end.

Fixpoint assoc (k : string) (props : list (string * value)) : option value :=
  match props with
  | [] => None
  | (k', v) :: rest => if String.eqb k k' then Some v else assoc k rest
  end.

(** The own property [k] of [v], if [v] has one.  Only the names the
    consumer reads are ever looked up (type, database, table, data,
    old_data, ts, timestamp, id); none of them is an index or [length], so
    arrays and primitives have no such own property. *)
Definition own_prop (v : value) (k : string) : option value :=
  match v with
  | VObj props => assoc k props
  | _ => None
  end.

(** The value of the expression [v.k] when [v] is neither [null] nor
    [undefined]: the own property, else [undefined] (no prototype defines
    any of the names listed above). *)
Definition prop (v : value) (k : string) : value :=
  match own_prop v k with
  | Some x => x
  | None => VUndefined
  end.

Definition Array_isArray (v : value) : bool :=
  match v with VArr _ => true | _ => false end.

(** [v.length] for an array. *)
Definition array_length (v : value) : nat :=
  match v with VArr elems => length elems | _ => 0 end.

(** [v[i]] for an array. *)
Definition index (v : value) (i : nat) : value :=
  match v with
  | VArr elems => nth i elems VUndefined
  | _ => VUndefined
  end.

End Js.
Import Js.

(** ** Completions and the monad of effects *)

(** How the evaluation of a statement ends.  [Exit] is [process.exit]: it
    ends the process, so no [catch] sees it and nothing runs after it. *)
Inductive Completion (A : Type) : Type :=
| Normal (a : A)
| Throw (e : JsError)
| Exit (code : Z).
Arguments Normal {A} a.
Arguments Throw {A} e.
Arguments Exit {A} code.

(** A computation over a state [S].  The state reached is kept whatever the
    completion: an assignment made before a [throw] stays made. *)
Definition M (S A : Type) : Type := S -> Completion A * S.

Definition m_ret {S A} (a : A) : M S A := fun s => (Normal a, s).

Definition m_bind {S A B} (c : M S A) (k : A -> M S B) : M S B :=
  fun s =>
    match c s with
    | (Normal a, s') => k a s'
    | (Throw e, s') => (Throw e, s')
    | (Exit code, s') => (Exit code, s')
    end.

Definition m_throw {S A} (e : JsError) : M S A := fun s => (Throw e, s).

(** [try { c } catch (e) { h e }]. *)
Definition m_catch {S A} (c : M S A) (h : JsError -> M S A) : M S A :=
  fun s =>
    match c s with
    | (Throw e, s') => h e s'
    | r => r
    end.

#[export] Instance Monad_M {S} : Monad (M S) :=
  {| ret := @m_ret S; bind := @m_bind S |}.

#[export] Instance MonadState_M {S} : MonadState S (M S) :=
  {| get := fun s => (Normal s, s); put := fun s' _ => (Normal tt, s') |}.

#[export] Instance MonadExc_M {S} : MonadExc JsError (M S) :=
  {| raise := @m_throw S; catch := @m_catch S |}.

(** An assignment to the state: [s = f(s)]. *)
Definition assign {S} (f : S -> S) : M S unit := fun s => (Normal tt, f s).

(** [if (b) { c }]. *)
Definition when {S} (b : bool) (c : M S unit) : M S unit :=
  if b then c else ret tt.

(** The expression [v.k]: a TypeError when [v] is [null] or [undefined]. *)
Definition get_prop {S} (v : value) (k : string) : M S value :=
  if nullish v
  then raise (TypeError ("Cannot read properties of "
                         ++ (if is_undefined v then "undefined" else "null")
                         ++ " (reading '" ++ k ++ "')"))
  else ret (prop v k).

(** ** The change record *)

(** The object built by [processDatabaseChange].  [oldData] and
    [changeTimestamp] are properties that exist only once assigned. *)
Record ChangeRecord : Type := mkRecord {
  changeType : value;
  database : value;
  table : value;
  primaryKey : value;
  changes : value;
  rawData : value;
  oldData : option value;
  changeTimestamp : option value
}.

Definition set_changeType (v : value) (r : ChangeRecord) : ChangeRecord :=
  mkRecord v (database r) (table r) (primaryKey r) (changes r) (rawData r)
           (oldData r) (changeTimestamp r).
Definition set_database (v : value) (r : ChangeRecord) : ChangeRecord :=
  mkRecord (changeType r) v (table r) (primaryKey r) (changes r) (rawData r)
           (oldData r) (changeTimestamp r).
Definition set_table (v : value) (r : ChangeRecord) : ChangeRecord :=
  mkRecord (changeType r) (database r) v (primaryKey r) (changes r) (rawData r)
           (oldData r) (changeTimestamp r).
Definition set_primaryKey (v : value) (r : ChangeRecord) : ChangeRecord :=
  mkRecord (changeType r) (database r) (table r) v (changes r) (rawData r)
           (oldData r) (changeTimestamp r).
Definition set_changes (v : value) (r : ChangeRecord) : ChangeRecord :=
  mkRecord (changeType r) (database r) (table r) (primaryKey r) v (rawData r)
           (oldData r) (changeTimestamp r).
Definition set_oldData (v : value) (r : ChangeRecord) : ChangeRecord :=
  mkRecord (changeType r) (database r) (table r) (primaryKey r) (changes r)
           (rawData r) (Some v) (changeTimestamp r).
Definition set_changeTimestamp (v : value) (r : ChangeRecord) : ChangeRecord :=
  mkRecord (changeType r) (database r) (table r) (primaryKey r) (changes r)
           (rawData r) (oldData r) (Some v).

(** The object literal bound to [result] (lines 115-122). *)
Definition initial_result (cdcData : value) : ChangeRecord :=
  {| changeType := VStr "unknown";
     database := VNull;
     table := VNull;
     primaryKey := VNull;
     changes := VObj [];
     rawData := cdcData;
     oldData := None;
     changeTimestamp := None |}.

(** The test of line 139:
    [cdcData.data && Array.isArray(cdcData.data) && cdcData.data.length > 0]. *)
Definition has_rows (data : value) : bool :=
  truthy data && Array_isArray data && (0 <? array_length data)%nat.

(** The body of the [try] block of [processDatabaseChange] (lines
    125-157), a computation on [result].  A property read twice by the
    source (once in the test, once in the assignment) is read once here:
    a read has no effect and gives the same value each time. *)
Definition extract (cdcData : value) : M ChangeRecord unit :=
  type_ <- get_prop cdcData "type" ;;
  when (truthy type_) (assign (set_changeType type_)) ;;
  database_ <- get_prop cdcData "database" ;;
  when (truthy database_) (assign (set_database database_)) ;;
  table_ <- get_prop cdcData "table" ;;
  when (truthy table_) (assign (set_table table_)) ;;
  data <- get_prop cdcData "data" ;;
  when (has_rows data)
       (let firstRow := index data 0 in
        id <- get_prop firstRow "id" ;;
        when (negb (is_undefined id))
             (assign (set_primaryKey (VObj [("id", id)]))) ;;
        assign (set_changes data)) ;;
  old_data <- get_prop cdcData "old_data" ;;
  when (truthy old_data) (assign (set_oldData old_data)) ;;
  stamp <- (ts <- get_prop cdcData "ts" ;;
            if truthy ts then ret ts else get_prop cdcData "timestamp") ;;
  when (truthy stamp) (assign (set_changeTimestamp stamp)).

(** ** The world of the consumer process *)

Inductive Level : Type := INFO | WARN | ERROR.

(** An argument of a logger call: a string or an error object. *)
Inductive LogArg : Type :=
| LStr (s : string)
| LErr (e : JsError).

(** The awaited calls on the Kafka client ([kafka.admin()] and
    [kafka.consumer(...)]). *)
Inductive Op : Type :=
| AdminConnect
| AdminListTopics
| AdminDisconnect
| ConsumerConnect
| ConsumerSubscribe (topic : string)
| ConsumerRun
| ConsumerDisconnect.

(** What the process does that can be seen from outside, in order. *)
Inductive Event : Type :=
| Log (level : Level) (args : list LogArg)
| Call (op : Op)
| JsonParse (text : string)
| Sleep (ms : Z).

(** [trace]: the events so far, oldest first.  [isRunning]: the field of
    the one [CDCMessageProcessor] the module creates.  [clock]: the time in
    milliseconds. *)
Record World : Type := mkWorld {
  trace : list Event;
  isRunning : bool;
  clock : Z
}.

(** The state of the process when the module has been loaded
    ([new CDCMessageProcessor()] sets [isRunning] to false). *)
Definition initial_world (t0 : Z) : World :=
  {| trace := []; isRunning := false; clock := t0 |}.

(** What the program is run against: the built-ins [JSON.parse],
    [JSON.stringify], [Buffer.prototype.toString] and
    [Date.prototype.toISOString], the variable KAFKA_TOPIC of the
    environment, and the broker: [broker t op] is the error with which the
    call [op] on the Kafka client fails at time [t], if it fails.  Time
    passes only in [setTimeout], so the calls of one start-up attempt see
    the broker at one time. *)
Record Env : Type := mkEnv {
  JSON_parse : string -> JsError + value;
  JSON_stringify : value -> JsError + string;
  Buffer_toString : list Byte.byte -> string;
  toISOString : Z -> string;
  KAFKA_TOPIC : option string;
  broker : Z -> Op -> option JsError
}.

(** The world after the events [evs]. *)
Definition add_events (w : World) (evs : list Event) : World :=
  mkWorld (trace w ++ evs) (isRunning w) (clock w).

Definition emit (ev : Event) : M World unit :=
  fun w => (Normal tt, add_events w [ev]).

Definition logger_info (args : list LogArg) : M World unit := emit (Log INFO args).
Definition logger_warn (args : list LogArg) : M World unit := emit (Log WARN args).
Definition logger_error (args : list LogArg) : M World unit := emit (Log ERROR args).

(** [this.isRunning = b]. *)
Definition set_isRunning (b : bool) : M World unit :=
  fun w => (Normal tt, mkWorld (trace w) b (clock w)).

(** [process.exit(code)]. *)
Definition process_exit {A} (code : Z) : M World A := fun w => (Exit code, w).

(** [await new Promise(resolve => setTimeout(resolve, ms))]. *)
Definition sleep (ms : Z) : M World unit :=
  fun w => (Normal tt, mkWorld (trace w ++ [Sleep ms]) (isRunning w) (clock w + ms)).

(** An awaited call on the Kafka client: it is recorded, and it throws
    when the broker makes it fail. *)
Definition kafka (env : Env) (op : Op) : M World unit :=
  fun w =>
    let w' := add_events w [Call op] in
    match broker env (clock w) op with
    | Some e => (Throw e, w')
    | None => (Normal tt, w')
    end.

(** A built-in that returns or throws. *)
Definition lift {S A} (r : JsError + A) : M S A :=
  match r with
  | inl e => raise e
  | inr a => ret a
  end.

(** ** The normaliser *)

(** [processDatabaseChange(cdcData)] (lines 113-164): [result] starts as
    the object literal, the [try] block works on it, a thrown error is
    logged, and [result] is returned as it then is. *)
Definition processDatabaseChange (cdcData : value) : M World ChangeRecord :=
  let (completion, result) := extract cdcData (initial_result cdcData) in
  match completion with
  | Throw processingError =>
      logger_error [LStr "Error processing CDC data structure:"; LErr processingError] ;;
      ret result
  | _ => ret result
  end.

(** ** The message loop *)

(** A Kafka message as the callback receives it: [value] is a Buffer or
    null. *)
Record Message : Type := mkMessage {
  value_ : option (list Byte.byte);
  offset : string;
  timestamp : string
}.

(** The object passed to [JSON.stringify] (lines 91-106). *)
Definition log_entry (now topic : string) (partition : nat) (message : Message)
           (messageSize : nat) (processedData : ChangeRecord) : value :=
  VObj [ ("timestamp", VStr now);
         ("source", VStr "database-cdc");
         ("topic", VStr topic);
         ("partition", VNum (num_of_nat partition));
         ("offset", VStr (offset message));
         ("changeType", changeType processedData);
         ("table", table processedData);
         ("database", database processedData);
         ("primaryKey", primaryKey processedData);
         ("changes", changes processedData);
         ("metadata", VObj [ ("kafkaTimestamp", VStr (timestamp message));
                             ("messageSize", VNum (num_of_nat messageSize)) ]) ].

(** [message.value.length]. *)
Definition value_length {S} (message : Message) : M S nat :=
  match value_ message with
  | Some bytes => ret (length bytes)
  | None => raise (TypeError "Cannot read properties of null (reading 'length')")
  end.

(** [processMessage(topic, partition, message)] (lines 68-111).  The inner
    [try] yields the parsed payload, or nothing when its [catch] block
    returned from the function. *)
Definition processMessage (env : Env) (topic : string) (partition : nat)
           (message : Message) : M World unit :=
  catch
    (let messageValue := option_map (Buffer_toString env) (value_ message) in
     match messageValue with
     | None | Some EmptyString => logger_warn [LStr "Received empty message"]
     | Some messageValue =>
         parsed <- catch
                     (emit (JsonParse messageValue) ;;
                      cdcData <- lift (JSON_parse env messageValue) ;;
                      ret (Some cdcData))
                     (fun parseError =>
                        logger_error [LStr "Failed to parse message JSON:"; LErr parseError] ;;
                        logger_info [LStr "Raw message:"; LStr messageValue] ;;
                        ret None) ;;
         match parsed with
         | None => ret tt
         | Some cdcData =>
             processedData <- processDatabaseChange cdcData ;;
             w <- get ;;
             messageSize <- value_length message ;;
             line <- lift (JSON_stringify env
                             (log_entry (toISOString env (clock w)) topic partition
                                        message messageSize processedData)) ;;
             logger_info [LStr line]
         end
     end)
    (fun error => logger_error [LStr "Error processing message:"; LErr error]).

(** The callback given to [consumer.run] (lines 57-59). *)
Definition eachMessage (env : Env) (m : string * nat * Message) : M World unit :=
  let '(topic, partition, message) := m in
  processMessage env topic partition message.

(** The Kafka client calls [eachMessage] on the messages in the order of
    their delivery, and goes on to the next message when the callback has
    returned; a callback that throws stops the delivery. *)
Fixpoint deliver (env : Env) (messages : list (string * nat * Message)) : M World unit :=
  match messages with
  | [] => ret tt
  | m :: rest => eachMessage env m ;; deliver env rest
  end.

(** ** Start, stop and the health probe

    Each function below is run from its beginning to its end on the world
    it is given.  In the process the signal handlers and the health probe
    can run while [startConsumer] waits in an [await]; they see the world
    as it is then, which is why the statements about them are made for an
    arbitrary world. *)

Definition string_of_nat (n : nat) : string := NilZero.string_of_uint (Nat.to_uint n).
Definition string_of_Z (z : Z) : string := NilZero.string_of_int (Z.to_int z).

(** [process.env.KAFKA_TOPIC || 'tidb-cdc-changes']. *)
Definition topic_name (env : Env) : string :=
  match KAFKA_TOPIC env with
  | None | Some EmptyString => "tidb-cdc-changes"
  | Some t => t
  end.

(** [CDCMessageProcessor.start()] (lines 41-66).  [consumer.run] resolves
    once the consumer has started; the messages come later, through
    [eachMessage]. *)
Definition start (env : Env) : M World unit :=
  catch
    (logger_info [LStr "Starting CDC Consumer..."] ;;
     kafka env ConsumerConnect ;;
     logger_info [LStr "Connected to Kafka"] ;;
     kafka env (ConsumerSubscribe (topic_name env)) ;;
     set_isRunning true ;;
     kafka env ConsumerRun)
    (fun error =>
       logger_error [LStr "Failed to start consumer:"; LErr error] ;;
       process_exit 1).

(** [CDCMessageProcessor.stop()] (lines 166-173). *)
Definition stop (env : Env) : M World unit :=
  w <- get ;;
  when (isRunning w)
       (logger_info [LStr "Stopping CDC Consumer..."] ;;
        kafka env ConsumerDisconnect ;;
        set_isRunning false ;;
        logger_info [LStr "Consumer stopped"]).

(** The handlers of SIGTERM and SIGINT (lines 179-189); [signal] is the
    name of the signal.  The handler is an async function nobody awaits:
    when it completes with [Throw], that is a rejected promise without a
    handler. *)
Definition on_signal (env : Env) (signal : string) : M World unit :=
  logger_info [LStr ("Received " ++ signal ++ ", shutting down gracefully...")] ;;
  stop env ;;
  process_exit 0.

(** The handler of GET /health (lines 196-202): the object given to
    [res.json]. *)
Definition health (env : Env) : M World value :=
  w <- get ;;
  ret (VObj [ ("status", VStr (if isRunning w then "healthy" else "unhealthy"));
              ("timestamp", VStr (toISOString env (clock w)));
              ("service", VStr "cdc-consumer") ]).

(** [testKafkaConnection()] (lines 240-251). *)
Definition testKafkaConnection (env : Env) : M World unit :=
  catch
    (kafka env AdminConnect ;;
     kafka env AdminListTopics ;;
     logger_info [LStr "Kafka connectivity verified"] ;;
     kafka env AdminDisconnect)
    (fun error =>
       kafka env AdminDisconnect ;;
       raise (Error ("Kafka connection test failed: " ++ message error))).

Definition maxRetries : nat := 10.
Definition retryDelay : Z := 15000.

(** One turn of the [for] loop of [startConsumer] (lines 214-235); the
    result says whether the function returned ([true]) or the loop goes
    on ([false]). *)
Definition attempt_once (env : Env) (attempt : nat) : M World bool :=
  catch
    (logger_info [LStr ("Starting CDC message processor (attempt "
                        ++ string_of_nat attempt ++ "/"
                        ++ string_of_nat maxRetries ++ ")...")] ;;
     testKafkaConnection env ;;
     start env ;;
     logger_info [LStr "CDC Consumer started successfully"] ;;
     ret true)
    (fun error =>
       logger_error [LStr ("Consumer startup attempt " ++ string_of_nat attempt
                           ++ " failed:"); LStr (message error)] ;;
       when (attempt =? maxRetries)%nat
            (logger_error [LStr "Max retry attempts reached. Exiting..."] ;;
             process_exit 1) ;;
       logger_info [LStr ("Retrying in " ++ string_of_Z (retryDelay / 1000)
                          ++ " seconds...")] ;;
       sleep retryDelay ;;
       ret false).

(** [for (let attempt = ...; attempt <= maxRetries; attempt++)], with
    [fuel] bounding the number of turns. *)
Fixpoint startConsumer_from (env : Env) (fuel attempt : nat) : M World unit :=
  match fuel with
  | O => ret tt
  | S fuel' =>
      if (attempt <=? maxRetries)%nat
      then returned <- attempt_once env attempt ;;
           if (returned : bool) then ret tt
           else startConsumer_from env fuel' (S attempt)
      else ret tt
  end.

(** [startConsumer()] (lines 209-237).  The loop makes at most
    [maxRetries] turns, so with this fuel it stops on its own test. *)
Definition startConsumer (env : Env) : M World unit :=
  startConsumer_from env (S maxRetries) 1.

(** ** Observations on a trace *)

Definition is_call (op : Op) (ev : Event) : bool :=
  match ev, op with
  | Call AdminConnect, AdminConnect
  | Call AdminListTopics, AdminListTopics
  | Call AdminDisconnect, AdminDisconnect
  | Call ConsumerConnect, ConsumerConnect
  | Call ConsumerRun, ConsumerRun
  | Call ConsumerDisconnect, ConsumerDisconnect => true
  | Call (ConsumerSubscribe t), ConsumerSubscribe t' => String.eqb t t'
  | _, _ => false
  end.

Definition is_sleep (ev : Event) : bool :=
  match ev with Sleep _ => true | _ => false end.

Definition is_parse (ev : Event) : bool :=
  match ev with JsonParse _ => true | _ => false end.

Definition is_log (level : Level) (ev : Event) : bool :=
  match ev, level with
  | Log INFO _, INFO | Log WARN _, WARN | Log ERROR _, ERROR => true
  | _, _ => false
  end.

(** How many events of [t] satisfy [p]. *)
Definition count (p : Event -> bool) (t : list Event) : nat :=
  length (filter p t).

(** The names of the properties of an object, in order. *)
Definition keys (v : value) : list string :=
  match v with
  | VObj props => map fst props
  | _ => []
  end.

(** ** Statements about payloads *)

(** The optional fields of a CDC payload. *)
Definition optional_fields : list string :=
  ["type"; "database"; "table"; "data"; "old_data"; "ts"; "timestamp"].

(** The payload has none of the optional fields. *)
Definition all_absent (cdcData : value) : Prop :=
  forall k, In k optional_fields -> own_prop cdcData k = None.

(** [data] passes the test of line 139 and its first element is [null]
    (or [undefined]), so that reading [firstRow.id] throws. *)
Definition first_row_unreadable (data : value) : bool :=
  has_rows data && nullish (index data 0).

(** The [try] block of [processDatabaseChange] runs to its end on
    [cdcData]: no property read in it throws. *)
Definition extraction_completes (cdcData : value) : bool :=
  negb (nullish cdcData) && negb (first_row_unreadable (prop cdcData "data")).

(** The record [processDatabaseChange] returns: [result] as the [try]
    block leaves it. *)
Definition normalized (cdcData : value) : ChangeRecord :=
  snd (extract cdcData (initial_result cdcData)).

(** What [processDatabaseChange] logs: the error its [catch] block
    received, if the [try] block threw. *)
Definition normaliser_log (cdcData : value) : list Event :=
  match fst (extract cdcData (initial_result cdcData)) with
  | Throw processingError =>
      [Log ERROR [LStr "Error processing CDC data structure:"; LErr processingError]]
  | _ => []
  end.

(** The names of the properties of the logged entry, and those of its
    [metadata]. *)
Definition entry_keys : list string :=
  ["timestamp"; "source"; "topic"; "partition"; "offset"; "changeType";
   "table"; "database"; "primaryKey"; "changes"; "metadata"].

(** ** Statements about the broker *)

Definition succeeds (env : Env) (t : Z) (op : Op) : bool :=
  match broker env t op with
  | None => true
  | Some _ => false
  end.

(** At time [t] the three calls of [testKafkaConnection] succeed. *)
Definition probe_ok (env : Env) (t : Z) : bool :=
  succeeds env t AdminConnect && succeeds env t AdminListTopics
  && succeeds env t AdminDisconnect.

(** At time [t] the consumer can connect and subscribe. *)
Definition subscribe_ok (env : Env) (t : Z) : bool :=
  succeeds env t ConsumerConnect
  && succeeds env t (ConsumerSubscribe (topic_name env)).

(** At time [t] the three calls of [start] succeed. *)
Definition start_ok (env : Env) (t : Z) : bool :=
  subscribe_ok env t && succeeds env t ConsumerRun.

(** What a successful [start] logs and calls. *)
Definition start_events (env : Env) : list Event :=
  [ Log INFO [LStr "Starting CDC Consumer..."];
    Call ConsumerConnect;
    Log INFO [LStr "Connected to Kafka"];
    Call (ConsumerSubscribe (topic_name env));
    Call ConsumerRun ].

(** The time of the start-up attempt number [S k] when the first one is
    made at [t0]. *)
Definition attempt_time (t0 : Z) (k : nat) : Z := (t0 + Z.of_nat k * retryDelay)%Z.

(** A call on the consumer (not on the admin client). *)
Definition is_consumer_call (ev : Event) : bool :=
  match ev with
  | Call ConsumerConnect | Call (ConsumerSubscribe _) | Call ConsumerRun
  | Call ConsumerDisconnect => true
  | _ => false
  end.

(** ** Further observations *)

(** Any call on the Kafka client. *)
Definition is_any_call (ev : Event) : bool :=
  match ev with Call _ => true | _ => false end.

(** The message carries a text that is not empty, so that
    [processMessage] goes on to [JSON.parse]. *)
Definition has_text (env : Env) (m : string * nat * Message) : bool :=
  match option_map (Buffer_toString env) (value_ (snd m)) with
  | Some (String _ _) => true
  | _ => false
  end.


(** ** Concrete environments and inputs *)

Module Demo.

(** The double quote. *)
Definition dq : string := String (ascii_of_nat 34) EmptyString.

(** The text [{"type":"update","old_data":{"id":1},"ts":5}] and its
    value. *)
Definition update_text : string :=
  "{" ++ dq ++ "type" ++ dq ++ ":" ++ dq ++ "update" ++ dq ++ ","
      ++ dq ++ "old_data" ++ dq ++ ":{" ++ dq ++ "id" ++ dq ++ ":1},"
      ++ dq ++ "ts" ++ dq ++ ":5}".

Definition update_payload : value :=
  VObj [ ("type", VStr "update");
         ("old_data", VObj [("id", VNum (num_of_nat 1))]);
         ("ts", VNum (num_of_nat 5)) ].

(** A stand-in for [JSON.parse] that knows three texts. *)
Definition parse (text : string) : JsError + value :=
  if String.eqb text "{}" then inr (VObj [])
  else if String.eqb text "null" then inr VNull
  else if String.eqb text update_text then inr update_payload
  else inl (mkError "SyntaxError" "Unexpected token").

(** A stand-in for [JSON.stringify]: the names of the properties. *)
Definition stringify (v : value) : JsError + string :=
  inr (String.concat "," (keys v)).

(** A serialiser that always throws. *)
Definition stringify_fails (v : value) : JsError + string :=
  inl (TypeError "Converting circular structure to JSON").

(** The broker is down (no call succeeds) before time [up], and up from
    then on. *)
Definition broker_up_from (up : Z) (t : Z) (op : Op) : option JsError :=
  if (t <? up)%Z then Some (Error "Connection error") else None.

(** The broker answers the admin client, and the consumer cannot join
    before time [up]. *)
Definition consumer_up_from (up : Z) (t : Z) (op : Op) : option JsError :=
  match op with
  | ConsumerConnect =>
      if (t <? up)%Z then Some (Error "Connection error") else None
  | _ => None
  end.

(** The broker never answers. *)
Definition broker_down (t : Z) (op : Op) : option JsError :=
  Some (Error "Connection error").

(** Only [consumer.disconnect()] fails. *)
Definition disconnect_fails (t : Z) (op : Op) : option JsError :=
  match op with
  | ConsumerDisconnect => Some (Error "Disconnect failed")
  | _ => None
  end.

Definition env_with (stringify_ : value -> JsError + string)
           (broker_ : Z -> Op -> option JsError) : Env :=
  {| JSON_parse := parse;
     JSON_stringify := stringify_;
     Buffer_toString := string_of_list_byte;
     toISOString := string_of_Z;
     KAFKA_TOPIC := None;
     broker := broker_ |}.

(** Everything works. *)
Definition env : Env := env_with stringify (fun _ _ => None).

Definition message_of (text : string) : Message :=
  {| value_ := Some (list_byte_of_string text); offset := "42"; timestamp := "1700000000000" |}.

(** [{ data: [{ id: 1, name: "a" }] }]. *)
Definition one_row : value :=
  VObj [("data", VArr [VObj [("id", VNum (num_of_nat 1)); ("name", VStr "a")]])].

End Demo.

(** * Properties of the normaliser *)

(** Unfold the monad, then split on the outermost test, until the [try]
    block has run. *)
Ltac mstep :=
  cbv beta iota delta [m_bind m_ret m_throw m_catch when assign bind ret raise catch
                       Monad_M MonadExc_M fst snd].

Ltac run_extract :=
  repeat (mstep;
          match goal with
          | |- context [if ?b then _ else _] => destruct b eqn:?
          end);
  mstep.

Ltac start_extract H :=
  unfold normalized, extract, get_prop; rewrite H.

Section Normaliser.

Implicit Types (cdcData data : value) (w : World) (r : ChangeRecord).

Lemma prop_absent v k : own_prop v k = None -> prop v k = VUndefined.
Proof. unfold prop. intros ->. reflexivity. Qed.

Lemma prop_present v k x : own_prop v k = Some x -> prop v k = x.
Proof. unfold prop. intros ->. reflexivity. Qed.

Lemma own_prop_not_nullish v k x : own_prop v k = Some x -> nullish v = false.
Proof. destruct v; simpl; intros H; try discriminate; reflexivity. Qed.

Lemma has_rows_cons first rest : has_rows (VArr (first :: rest)) = true.
Proof. reflexivity. Qed.

(** [has_rows] holds of the non-empty arrays only. *)
Lemma has_rows_inv data :
  has_rows data = true -> exists first rest, data = VArr (first :: rest).
Proof.
  destruct data as [ | | b | n | s | [ | first rest] | props ];
    unfold has_rows; cbn [Array_isArray array_length length Nat.ltb Nat.leb];
    rewrite ?andb_false_r; try discriminate.
  intros _. eauto.
Qed.

(** The normaliser always returns, and what it returns is [normalized];
    it changes nothing but the log. *)
Lemma processDatabaseChange_returns cdcData w :
  exists w', processDatabaseChange cdcData w = (Normal (normalized cdcData), w')
             /\ isRunning w' = isRunning w /\ clock w' = clock w.
Proof.
  unfold processDatabaseChange, normalized.
  destruct (extract cdcData (initial_result cdcData)) as [c r].
  destruct c; cbn; eexists; repeat split; reflexivity.
Qed.

(** The same, with the world it leaves. *)
Lemma processDatabaseChange_eq cdcData w :
  processDatabaseChange cdcData w
  = (Normal (normalized cdcData), add_events w (normaliser_log cdcData)).
Proof.
  unfold processDatabaseChange, normalized, normaliser_log.
  destruct (extract cdcData (initial_result cdcData)) as [c r].
  destruct w as [t run now].
  destruct c; cbn; unfold add_events; cbn; rewrite ?app_nil_r; reflexivity.
Qed.

(** On [null] the first read throws and [result] stays as it started. *)
Lemma normalized_nullish cdcData :
  nullish cdcData = true -> normalized cdcData = initial_result cdcData.
Proof.
  intros H. unfold normalized, extract, get_prop. rewrite H. reflexivity.
Qed.

(** [changes] is the whole of [data] when [data] passed the test of line
    139 and the [try] block got past [firstRow.id]; else it is still the
    empty object. *)
Lemma changes_normalized cdcData :
  changes (normalized cdcData) =
  if negb (nullish cdcData) && has_rows (prop cdcData "data")
     && negb (nullish (index (prop cdcData "data") 0))
  then prop cdcData "data" else VObj [].
Proof.
  destruct (nullish cdcData) eqn:Hn.
  - rewrite normalized_nullish by assumption. reflexivity.
  - start_extract Hn. run_extract; first [reflexivity | cbn in *; congruence].
Qed.

Lemma primaryKey_normalized cdcData :
  primaryKey (normalized cdcData) =
  if negb (nullish cdcData) && has_rows (prop cdcData "data")
     && negb (nullish (index (prop cdcData "data") 0))
     && negb (is_undefined (prop (index (prop cdcData "data") 0) "id"))
  then VObj [("id", prop (index (prop cdcData "data") 0) "id")] else VNull.
Proof.
  destruct (nullish cdcData) eqn:Hn.
  - rewrite normalized_nullish by assumption. reflexivity.
  - start_extract Hn. run_extract; first [reflexivity | cbn in *; congruence].
Qed.

Lemma changeTimestamp_normalized cdcData :
  changeTimestamp (normalized cdcData) =
  if extraction_completes cdcData
  then if truthy (prop cdcData "ts") then Some (prop cdcData "ts")
       else if truthy (prop cdcData "timestamp") then Some (prop cdcData "timestamp")
       else None
  else None.
Proof.
  unfold extraction_completes, first_row_unreadable.
  destruct (nullish cdcData) eqn:Hn.
  - rewrite normalized_nullish by assumption. reflexivity.
  - start_extract Hn. run_extract; first [reflexivity | cbn in *; congruence].
Qed.

(** With none of the optional fields, [result] is returned as the object
    literal made it. *)
Lemma normalized_all_absent cdcData :
  all_absent cdcData -> normalized cdcData = initial_result cdcData.
Proof.
  intros H.
  destruct (nullish cdcData) eqn:Hn.
  - apply normalized_nullish; assumption.
  - start_extract Hn.
    rewrite !prop_absent by (apply H; cbn; tauto).
    reflexivity.
Qed.

(** C1.  The normaliser never fails: on every payload it returns a
    record.  On a payload with none of the optional fields (type, database,
    table, data, old_data, ts, timestamp) the record has changeType
    "unknown", database, table and primaryKey null, and changes the empty
    object. *)
Theorem normalize_defaults_and_never_fails :
  (forall cdcData w,
      exists r w', processDatabaseChange cdcData w = (Normal r, w'))
  /\ (forall cdcData w,
         all_absent cdcData ->
         exists r w',
           processDatabaseChange cdcData w = (Normal r, w')
           /\ changeType r = VStr "unknown"
           /\ database r = VNull
           /\ table r = VNull
           /\ primaryKey r = VNull
           /\ changes r = VObj []).
Proof.
  split.
  - intros cdcData w.
    destruct (processDatabaseChange_returns cdcData w) as (w' & E & _).
    eauto.
  - intros cdcData w H.
    destruct (processDatabaseChange_returns cdcData w) as (w' & E & _).
    rewrite (normalized_all_absent cdcData H) in E.
    exists (initial_result cdcData), w'. cbn. auto 10.
Qed.

Lemma normalize_defaults_witness :
  all_absent (VObj [("op", VStr "x")])
  /\ exists r w',
      processDatabaseChange (VObj [("op", VStr "x")]) (initial_world 0) = (Normal r, w')
      /\ changeType r = VStr "unknown"
      /\ database r = VNull
      /\ table r = VNull
      /\ primaryKey r = VNull
      /\ changes r = VObj [].
Proof.
  assert (H : all_absent (VObj [("op", VStr "x")])).
  { intros k Hk. cbn in Hk.
    repeat (destruct Hk as [<- | Hk]; [reflexivity | ]). destruct Hk. }
  split; [exact H | ].
  exact (proj2 normalize_defaults_and_never_fails _ (initial_world 0) H).
Defined.

(** C8, as the code has it.  [changes] is the whole [data] array exactly
    when [data] is a non-empty array whose first element is not null; in
    every other case (no [data], [data] not an array, an empty array, a
    null first element) it is the empty object.  For
    [{ data: [{ id: 1, name: "a" }] }] the record has primaryKey
    [{ id: 1 }] and changes the whole array. *)
Theorem changes_verbatim_for_readable_rows :
  (forall cdcData w,
      exists w',
        processDatabaseChange cdcData w = (Normal (normalized cdcData), w')
        /\ changes (normalized cdcData) =
           match own_prop cdcData "data" with
           | Some (VArr (first :: rest)) =>
               if nullish first then VObj [] else VArr (first :: rest)
           | _ => VObj []
           end)
  /\ (forall w,
         exists r,
           processDatabaseChange Demo.one_row w = (Normal r, w)
           /\ primaryKey r = VObj [("id", VNum (num_of_nat 1))]
           /\ changes r = VArr [VObj [("id", VNum (num_of_nat 1)); ("name", VStr "a")]]).
Proof.
  split.
  - intros cdcData w.
    destruct (processDatabaseChange_returns cdcData w) as (w' & E & _).
    exists w'. split; [exact E | ].
    rewrite changes_normalized. unfold prop.
    destruct (own_prop cdcData "data") as [data | ] eqn:Hd.
    + rewrite (own_prop_not_nullish _ _ _ Hd).
      destruct (has_rows data) eqn:Hr.
      * destruct (has_rows_inv _ Hr) as (first & rest & ->).
        cbn. destruct (nullish first); reflexivity.
      * destruct data as [ | | b | n | s | [ | first rest] | props ];
          try reflexivity.
        rewrite has_rows_cons in Hr. discriminate.
    + rewrite andb_false_r. reflexivity.
  - intros w. eexists. split; [reflexivity | ]. split; reflexivity.
Qed.

(** C8 as stated fails: with [{ data: [] }] the field is present and
    [changes] is the empty object, not the (empty) array. *)
Lemma changes_verbatim_counterexample :
  own_prop (VObj [("data", VArr [])]) "data" = Some (VArr [])
  /\ exists r,
      processDatabaseChange (VObj [("data", VArr [])]) (initial_world 0)
      = (Normal r, initial_world 0)
      /\ changes r = VObj []
      /\ changes r <> VArr [].
Proof.
  split; [reflexivity | ].
  eexists. split; [reflexivity | ]. split; [reflexivity | discriminate].
Qed.

(** C9, as the code has it.  When the [try] block runs to its end,
    [changeTimestamp] is [ts] if [ts] is truthy, else [timestamp] if that
    is truthy, else it stays absent; a [ts] that is present and falsy (0,
    the empty string, false, null) is passed over.  When neither field is
    present, [changeTimestamp] is absent whatever the payload. *)
Theorem changeTimestamp_first_truthy :
  forall cdcData w,
    exists w',
      processDatabaseChange cdcData w = (Normal (normalized cdcData), w')
      /\ (extraction_completes cdcData = true ->
          changeTimestamp (normalized cdcData) =
          if truthy (prop cdcData "ts") then Some (prop cdcData "ts")
          else if truthy (prop cdcData "timestamp")
               then Some (prop cdcData "timestamp")
               else None)
      /\ (own_prop cdcData "ts" = None ->
          own_prop cdcData "timestamp" = None ->
          changeTimestamp (normalized cdcData) = None).
Proof.
  intros cdcData w.
  destruct (processDatabaseChange_returns cdcData w) as (w' & E & _).
  exists w'. split; [exact E | ].
  rewrite changeTimestamp_normalized. split.
  - intros ->. reflexivity.
  - intros H1 H2. rewrite (prop_absent _ _ H1), (prop_absent _ _ H2).
    destruct (extraction_completes cdcData); reflexivity.
Qed.

Lemma changeTimestamp_witness :
  let cdcData := VObj [("ts", VNum (S754_zero false)); ("timestamp", VStr "t1")] in
  extraction_completes cdcData = true
  /\ changeTimestamp (normalized cdcData) = Some (VStr "t1")
  /\ own_prop (VObj []) "ts" = None
  /\ own_prop (VObj []) "timestamp" = None
  /\ changeTimestamp (normalized (VObj [])) = None.
Proof.
  cbv zeta.
  destruct (changeTimestamp_first_truthy
              (VObj [("ts", VNum (S754_zero false)); ("timestamp", VStr "t1")])
              (initial_world 0)) as (w1 & _ & H1 & _).
  destruct (changeTimestamp_first_truthy (VObj []) (initial_world 0))
    as (w2 & _ & _ & H2).
  split; [reflexivity | ].
  split; [exact (H1 eq_refl) | ].
  split; [reflexivity | ].
  split; [reflexivity | ].
  exact (H2 eq_refl eq_refl).
Defined.

(** C9 as stated fails: with [{ ts: 0, timestamp: "t1" }] the field [ts]
    is present, and [changeTimestamp] is [timestamp], not [ts]. *)
Lemma changeTimestamp_counterexample :
  let cdcData := VObj [("ts", VNum (S754_zero false)); ("timestamp", VStr "t1")] in
  own_prop cdcData "ts" = Some (VNum (S754_zero false))
  /\ exists r,
      processDatabaseChange cdcData (initial_world 0) = (Normal r, initial_world 0)
      /\ changeTimestamp r = Some (VStr "t1")
      /\ changeTimestamp r <> Some (VNum (S754_zero false)).
Proof.
  cbv zeta. split; [reflexivity | ].
  eexists. split; [reflexivity | ]. split; [reflexivity | discriminate].
Qed.

(** C10, as the code has it.  When [data] is a non-empty array whose first
    element is not null and has no [id] property, primaryKey is null and
    changes is the whole [data] array. *)
Theorem missing_id_degrades_primaryKey_only :
  forall cdcData first rest w,
    own_prop cdcData "data" = Some (VArr (first :: rest)) ->
    nullish first = false ->
    own_prop first "id" = None ->
    exists w',
      processDatabaseChange cdcData w = (Normal (normalized cdcData), w')
      /\ primaryKey (normalized cdcData) = VNull
      /\ changes (normalized cdcData) = VArr (first :: rest).
Proof.
  intros cdcData first rest w Hd Hn Hid.
  destruct (processDatabaseChange_returns cdcData w) as (w' & E & _).
  exists w'. split; [exact E | ].
  rewrite primaryKey_normalized, changes_normalized.
  rewrite (prop_present _ _ _ Hd), (own_prop_not_nullish _ _ _ Hd), has_rows_cons.
  cbn [index nth]. rewrite Hn, (prop_absent _ _ Hid). split; reflexivity.
Qed.

Lemma missing_id_witness :
  let first := VObj [("name", VStr "a")] in
  let cdcData := VObj [("data", VArr [first; VNull])] in
  own_prop cdcData "data" = Some (VArr [first; VNull])
  /\ nullish first = false
  /\ own_prop first "id" = None
  /\ exists w',
      processDatabaseChange cdcData (initial_world 0) = (Normal (normalized cdcData), w')
      /\ primaryKey (normalized cdcData) = VNull
      /\ changes (normalized cdcData) = VArr [first; VNull].
Proof.
  cbv zeta.
  split; [reflexivity | ]. split; [reflexivity | ]. split; [reflexivity | ].
  exact (missing_id_degrades_primaryKey_only
           (VObj [("data", VArr [VObj [("name", VStr "a")]; VNull])])
           (VObj [("name", VStr "a")]) [VNull] (initial_world 0)
           eq_refl eq_refl eq_refl).
Defined.

(** C10 as stated fails: in [{ data: [null] }] the first element has no
    [id] property, and [changes] is the empty object, not the array: the
    read of [firstRow.id] throws and ends the [try] block. *)
Lemma missing_id_counterexample :
  let cdcData := VObj [("data", VArr [VNull])] in
  own_prop cdcData "data" = Some (VArr [VNull])
  /\ own_prop VNull "id" = None
  /\ exists r w',
      processDatabaseChange cdcData (initial_world 0) = (Normal r, w')
      /\ primaryKey r = VNull
      /\ changes r = VObj []
      /\ changes r <> VArr [VNull].
Proof.
  cbv zeta. split; [reflexivity | ]. split; [reflexivity | ].
  eexists. eexists. split; [reflexivity | ].
  split; [reflexivity | ]. split; [reflexivity | discriminate].
Qed.

End Normaliser.

(** * Properties of the message loop *)

Ltac mrun :=
  cbv beta iota delta [m_bind m_ret m_throw m_catch when assign bind ret raise catch
                       get put Monad_M MonadExc_M MonadState_M fst snd lift
                       emit logger_info logger_warn logger_error option_map
                       value_length].

Lemma add_events_app w evs evs' :
  add_events (add_events w evs) evs' = add_events w (evs ++ evs').
Proof. unfold add_events. cbn. rewrite app_assoc. reflexivity. Qed.

Lemma add_events_nil w : add_events w [] = w.
Proof. destruct w. unfold add_events. cbn. rewrite app_nil_r. reflexivity. Qed.

Lemma count_app p t t' : count p (t ++ t') = count p t + count p t'.
Proof. unfold count. rewrite filter_app, length_app. reflexivity. Qed.

(** No event satisfies [p] when none satisfies the weaker [q]. *)
Lemma count_none p q t :
  (forall ev, p ev = true -> q ev = true) -> count q t = 0 -> count p t = 0.
Proof.
  intros Hpq. unfold count. induction t as [ | ev t IH]; [reflexivity | ].
  cbn. destruct (q ev) eqn:Hq; [discriminate | ].
  destruct (p ev) eqn:Hp; [rewrite (Hpq ev Hp) in Hq; discriminate | ].
  exact IH.
Qed.

(** The normaliser logs nothing when the [try] block runs to its end, and
    one error when it does not. *)
Lemma normaliser_log_completes cdcData :
  extraction_completes cdcData = true -> normaliser_log cdcData = [].
Proof.
  unfold extraction_completes, first_row_unreadable, normaliser_log.
  destruct (nullish cdcData) eqn:Hn; [discriminate | ].
  intros H. unfold extract, get_prop. rewrite Hn.
  run_extract; first [reflexivity | cbn in *; congruence].
Qed.

Lemma normaliser_log_aborted cdcData :
  extraction_completes cdcData = false ->
  exists m,
    normaliser_log cdcData
    = [Log ERROR [LStr "Error processing CDC data structure:"; LErr (TypeError m)]].
Proof.
  unfold extraction_completes, first_row_unreadable, normaliser_log.
  destruct (nullish cdcData) eqn:Hn.
  - intros _. unfold extract, get_prop. rewrite Hn. mstep. eauto.
  - intros H. unfold extract, get_prop. rewrite Hn.
    run_extract; first [cbn in *; congruence | eauto].
Qed.

Section MessageLoop.

Variable env : Env.
Implicit Types (w : World) (message : Message) (topic text : string) (partition : nat).

(** The text of the message is empty or there is none: one warning. *)
Lemma processMessage_empty topic partition message w :
  option_map (Buffer_toString env) (value_ message) = None
  \/ option_map (Buffer_toString env) (value_ message) = Some EmptyString ->
  processMessage env topic partition message w
  = (Normal tt, add_events w [Log WARN [LStr "Received empty message"]]).
Proof.
  intros H. unfold processMessage.
  destruct H as [-> | ->]; reflexivity.
Qed.

(** [JSON.parse] throws: the inner [catch] logs and returns. *)
Lemma processMessage_unparseable topic partition message bytes text parseError w :
  value_ message = Some bytes ->
  Buffer_toString env bytes = text ->
  text <> EmptyString ->
  JSON_parse env text = inl parseError ->
  processMessage env topic partition message w
  = (Normal tt,
     add_events w [ JsonParse text;
                    Log ERROR [LStr "Failed to parse message JSON:"; LErr parseError];
                    Log INFO [LStr "Raw message:"; LStr text] ]).
Proof.
  intros Hv Ht Hne Hp. unfold processMessage. rewrite Hv. cbn [option_map]. rewrite Ht.
  destruct text as [ | c text']; [congruence | ].
  mrun. rewrite Hp. mrun. rewrite !add_events_app. reflexivity.
Qed.

(** [JSON.parse] returns: the payload is normalised and the entry is
    serialised; the line is logged, or the error of the serialiser is. *)
Lemma processMessage_parsed topic partition message bytes text cdcData w :
  value_ message = Some bytes ->
  Buffer_toString env bytes = text ->
  text <> EmptyString ->
  JSON_parse env text = inr cdcData ->
  processMessage env topic partition message w
  = (Normal tt,
     add_events w
       (JsonParse text :: normaliser_log cdcData ++
        [match JSON_stringify env
                 (log_entry (toISOString env (clock w)) topic partition message
                            (length bytes) (normalized cdcData)) with
         | inr line => Log INFO [LStr line]
         | inl error => Log ERROR [LStr "Error processing message:"; LErr error]
         end])).
Proof.
  intros Hv Ht Hne Hp. unfold processMessage. rewrite Hv. cbn [option_map]. rewrite Ht.
  destruct text as [ | c text']; [congruence | ].
  mrun. rewrite Hp. mrun. rewrite processDatabaseChange_eq. rewrite Hv. mrun.
  cbn [clock add_events].
  destruct (JSON_stringify env _) as [error | line]; mrun;
    rewrite !add_events_app; reflexivity.
Qed.

(** Whatever the message, [processMessage] returns, and only the log has
    changed. *)
Lemma processMessage_returns topic partition message w :
  exists evs,
    processMessage env topic partition message w = (Normal tt, add_events w evs).
Proof.
  destruct (value_ message) as [bytes | ] eqn:Hv.
  - destruct (Buffer_toString env bytes) as [ | c text'] eqn:Ht.
    + eexists. apply processMessage_empty. right. rewrite Hv. cbn. rewrite Ht. reflexivity.
    + destruct (JSON_parse env (String c text')) as [parseError | cdcData] eqn:Hp.
      * eexists. eapply processMessage_unparseable; eauto. discriminate.
      * eexists. eapply processMessage_parsed; eauto. discriminate.
  - eexists. apply processMessage_empty. left. rewrite Hv. reflexivity.
Qed.

Lemma deliver_cons m rest w :
  exists evs,
    eachMessage env m w = (Normal tt, add_events w evs)
    /\ deliver env (m :: rest) w = deliver env rest (add_events w evs).
Proof.
  destruct m as [[topic partition] message].
  destruct (processMessage_returns topic partition message w) as (evs & E).
  exists evs. split; [exact E | ].
  cbn [deliver eachMessage]. mrun. rewrite E. reflexivity.
Qed.

Lemma deliver_returns messages :
  forall w, exists evs, deliver env messages w = (Normal tt, add_events w evs).
Proof.
  induction messages as [ | m rest IH]; intros w.
  - exists []. rewrite add_events_nil. reflexivity.
  - destruct (deliver_cons m rest w) as (evs & _ & ->).
    destruct (IH (add_events w evs)) as (evs' & ->).
    exists (evs ++ evs')%list. rewrite add_events_app. reflexivity.
Qed.

(** C2.  Failure isolation.  Whatever the messages are, the loop gets
    through all of them: the callback returns normally on each one, so the
    next one is delivered.  A parse failure is caught and logged (with the
    raw text); an exception in the normaliser is caught and logged there
    and the record is still returned; a failure to serialise the entry is
    caught and logged.  In particular, after a message that does not parse,
    a valid message is still normalised and its entry logged. *)
Theorem failure_isolation :
  (forall messages w,
      exists evs, deliver env messages w = (Normal tt, add_events w evs))
  /\ (forall m rest w,
         exists evs,
           eachMessage env m w = (Normal tt, add_events w evs)
           /\ deliver env (m :: rest) w = deliver env rest (add_events w evs))
  /\ (forall topic partition message bytes text parseError w,
         value_ message = Some bytes ->
         Buffer_toString env bytes = text ->
         text <> EmptyString ->
         JSON_parse env text = inl parseError ->
         processMessage env topic partition message w
         = (Normal tt,
            add_events w
              [ JsonParse text;
                Log ERROR [LStr "Failed to parse message JSON:"; LErr parseError];
                Log INFO [LStr "Raw message:"; LStr text] ]))
  /\ (forall cdcData w,
         extraction_completes cdcData = false ->
         exists m,
           processDatabaseChange cdcData w
           = (Normal (normalized cdcData),
              add_events w
                [Log ERROR [LStr "Error processing CDC data structure:";
                            LErr (TypeError m)]]))
  /\ (forall topic partition message bytes text cdcData error w,
         value_ message = Some bytes ->
         Buffer_toString env bytes = text ->
         text <> EmptyString ->
         JSON_parse env text = inr cdcData ->
         JSON_stringify env
           (log_entry (toISOString env (clock w)) topic partition message
                      (length bytes) (normalized cdcData)) = inl error ->
         processMessage env topic partition message w
         = (Normal tt,
            add_events w
              (JsonParse text :: normaliser_log cdcData ++
               [Log ERROR [LStr "Error processing message:"; LErr error]])))
  /\ (forall topic1 partition1 bad bytes1 text1 parseError
             topic2 partition2 good bytes2 text2 cdcData line w,
         value_ bad = Some bytes1 ->
         Buffer_toString env bytes1 = text1 ->
         text1 <> EmptyString ->
         JSON_parse env text1 = inl parseError ->
         value_ good = Some bytes2 ->
         Buffer_toString env bytes2 = text2 ->
         text2 <> EmptyString ->
         JSON_parse env text2 = inr cdcData ->
         JSON_stringify env
           (log_entry (toISOString env (clock w)) topic2 partition2 good
                      (length bytes2) (normalized cdcData)) = inr line ->
         deliver env [(topic1, partition1, bad); (topic2, partition2, good)] w
         = (Normal tt,
            add_events w
              ([ JsonParse text1;
                 Log ERROR [LStr "Failed to parse message JSON:"; LErr parseError];
                 Log INFO [LStr "Raw message:"; LStr text1];
                 JsonParse text2 ]
                 ++ normaliser_log cdcData ++ [Log INFO [LStr line]])%list)).
Proof.
  split; [exact deliver_returns | ].
  split; [exact deliver_cons | ].
  split; [exact processMessage_unparseable | ].
  split.
  { intros cdcData w H.
    destruct (normaliser_log_aborted cdcData H) as (m & E).
    exists m. rewrite processDatabaseChange_eq, E. reflexivity. }
  split.
  { intros topic partition message bytes text cdcData error w Hv Ht Hne Hp Hs.
    rewrite (processMessage_parsed _ _ _ _ _ _ _ Hv Ht Hne Hp), Hs. reflexivity. }
  intros topic1 partition1 bad bytes1 text1 parseError
         topic2 partition2 good bytes2 text2 cdcData line w
         Hv1 Ht1 Hne1 Hp1 Hv2 Ht2 Hne2 Hp2 Hs.
  cbn [deliver eachMessage]. mrun.
  rewrite (processMessage_unparseable _ _ _ _ _ _ _ Hv1 Ht1 Hne1 Hp1).
  rewrite (processMessage_parsed _ _ _ _ _ _ _ Hv2 Ht2 Hne2 Hp2).
  cbn [clock add_events]. rewrite Hs.
  unfold add_events. cbn [trace isRunning clock].
  rewrite <- !app_assoc. reflexivity.
Qed.

(** C4, as the code has it.  For a message that parses, the object given
    to [JSON.stringify] has exactly the properties timestamp, source,
    topic, partition, offset, changeType, table, database, primaryKey,
    changes and metadata (kafkaTimestamp, messageSize), with the values
    of the message and of the record; the line it serialises to is logged
    once, at level INFO.  The entry has no property for oldData,
    changeTimestamp or the raw payload, and does not depend on them. *)
Theorem emitted_entry_fields :
  forall topic partition message bytes text cdcData line w,
    value_ message = Some bytes ->
    Buffer_toString env bytes = text ->
    text <> EmptyString ->
    JSON_parse env text = inr cdcData ->
    let r := normalized cdcData in
    let entry := log_entry (toISOString env (clock w)) topic partition message
                           (length bytes) r in
    JSON_stringify env entry = inr line ->
    processMessage env topic partition message w
    = (Normal tt,
       add_events w (JsonParse text :: normaliser_log cdcData ++ [Log INFO [LStr line]]))
    /\ keys entry = entry_keys
    /\ own_prop entry "timestamp" = Some (VStr (toISOString env (clock w)))
    /\ own_prop entry "source" = Some (VStr "database-cdc")
    /\ own_prop entry "topic" = Some (VStr topic)
    /\ own_prop entry "partition" = Some (VNum (num_of_nat partition))
    /\ own_prop entry "offset" = Some (VStr (offset message))
    /\ own_prop entry "changeType" = Some (changeType r)
    /\ own_prop entry "table" = Some (table r)
    /\ own_prop entry "database" = Some (database r)
    /\ own_prop entry "primaryKey" = Some (primaryKey r)
    /\ own_prop entry "changes" = Some (changes r)
    /\ own_prop entry "metadata"
       = Some (VObj [ ("kafkaTimestamp", VStr (timestamp message));
                      ("messageSize", VNum (num_of_nat (length bytes))) ])
    /\ (forall k,
           In k ["oldData"; "changeTimestamp"; "rawData"; "rawPayload"] ->
           own_prop entry k = None)
    /\ (forall r',
           changeType r' = changeType r -> table r' = table r ->
           database r' = database r -> primaryKey r' = primaryKey r ->
           changes r' = changes r ->
           log_entry (toISOString env (clock w)) topic partition message
                     (length bytes) r' = entry).
Proof.
  intros topic partition message bytes text cdcData line w Hv Ht Hne Hp r entry Hs.
  split.
  { rewrite (processMessage_parsed _ _ _ _ _ _ _ Hv Ht Hne Hp).
    fold r. fold entry. rewrite Hs. reflexivity. }
  repeat (split; [reflexivity | ]).
  split.
  - intros k Hk. cbn in Hk.
    repeat (destruct Hk as [<- | Hk]; [reflexivity | ]). destruct Hk.
  - intros r' H1 H2 H3 H4 H5. unfold entry, log_entry.
    rewrite H1, H2, H3, H4, H5. reflexivity.
Qed.

(** C6.  A message whose value is absent, or is an empty buffer, gets one
    warning and nothing else: [JSON.parse] is not called and no entry is
    logged. *)
Theorem empty_message_skipped :
  forall topic partition message w,
    Buffer_toString env [] = EmptyString ->
    value_ message = None \/ value_ message = Some [] ->
    exists w',
      processMessage env topic partition message w = (Normal tt, w')
      /\ trace w' = (trace w ++ [Log WARN [LStr "Received empty message"]])%list
      /\ count is_parse (trace w') = count is_parse (trace w)
      /\ count (is_log INFO) (trace w') = count (is_log INFO) (trace w)
      /\ count (is_log WARN) (trace w') = S (count (is_log WARN) (trace w)).
Proof.
  intros topic partition message w He Hv.
  eexists. split.
  - apply processMessage_empty.
    destruct Hv as [-> | ->]; [left; reflexivity | right; cbn; rewrite He; reflexivity].
  - cbn [trace add_events]. rewrite !count_app. cbn. repeat split; lia.
Qed.

End MessageLoop.

Lemma failure_isolation_witness :
  let bad := Demo.message_of "oops" in
  let good := Demo.message_of "{}" in
  let syntax_error := mkError "SyntaxError" "Unexpected token" in
  let mute := Demo.env_with Demo.stringify_fails (fun _ _ => None) in
  let w := initial_world 0 in
  JSON_parse Demo.env "oops" = inl syntax_error
  /\ JSON_parse Demo.env "{}" = inr (VObj [])
  /\ processMessage Demo.env "tidb-cdc-changes" 0 bad w
     = (Normal tt,
        add_events w
          [ JsonParse "oops";
            Log ERROR [LStr "Failed to parse message JSON:"; LErr syntax_error];
            Log INFO [LStr "Raw message:"; LStr "oops"] ])
  /\ extraction_completes VNull = false
  /\ (exists m,
         processDatabaseChange VNull w
         = (Normal (normalized VNull),
            add_events w
              [Log ERROR [LStr "Error processing CDC data structure:";
                          LErr (TypeError m)]]))
  /\ processMessage mute "tidb-cdc-changes" 0 good w
     = (Normal tt,
        add_events w
          [ JsonParse "{}";
            Log ERROR [LStr "Error processing message:";
                       LErr (TypeError "Converting circular structure to JSON")] ])
  /\ deliver Demo.env [("tidb-cdc-changes", 0, bad); ("tidb-cdc-changes", 0, good)] w
     = (Normal tt,
        add_events w
          [ JsonParse "oops";
            Log ERROR [LStr "Failed to parse message JSON:"; LErr syntax_error];
            Log INFO [LStr "Raw message:"; LStr "oops"];
            JsonParse "{}";
            Log INFO [LStr "timestamp,source,topic,partition,offset,changeType,table,database,primaryKey,changes,metadata"] ]).
Proof.
  cbv zeta.
  assert (Hbad : "oops" <> EmptyString) by discriminate.
  assert (Hgood : "{}" <> EmptyString) by discriminate.
  destruct (failure_isolation Demo.env) as (_ & _ & Hparse & Hnorm & _ & Hboth).
  destruct (failure_isolation (Demo.env_with Demo.stringify_fails (fun _ _ => None)))
    as (_ & _ & _ & _ & Hemit & _).
  split; [reflexivity | ]. split; [reflexivity | ].
  split.
  { exact (Hparse "tidb-cdc-changes" 0 (Demo.message_of "oops") _ "oops" _
             (initial_world 0) eq_refl eq_refl Hbad eq_refl). }
  split; [reflexivity | ].
  split; [exact (Hnorm VNull (initial_world 0) eq_refl) | ].
  split.
  { exact (Hemit "tidb-cdc-changes" 0 (Demo.message_of "{}") _ "{}" (VObj []) _
             (initial_world 0) eq_refl eq_refl Hgood eq_refl eq_refl). }
  exact (Hboth "tidb-cdc-changes" 0 (Demo.message_of "oops") _ "oops" _
           "tidb-cdc-changes" 0 (Demo.message_of "{}") _ "{}" (VObj []) _
           (initial_world 0)
           eq_refl eq_refl Hbad eq_refl eq_refl eq_refl Hgood eq_refl eq_refl).
Defined.

Lemma emitted_entry_witness :
  let message := Demo.message_of "{}" in
  let entry := log_entry "0" "tidb-cdc-changes" 0 message 2 (normalized (VObj [])) in
  JSON_parse Demo.env "{}" = inr (VObj [])
  /\ JSON_stringify Demo.env entry
     = inr "timestamp,source,topic,partition,offset,changeType,table,database,primaryKey,changes,metadata"
  /\ processMessage Demo.env "tidb-cdc-changes" 0 message (initial_world 0)
     = (Normal tt,
        add_events (initial_world 0)
          [ JsonParse "{}";
            Log INFO [LStr "timestamp,source,topic,partition,offset,changeType,table,database,primaryKey,changes,metadata"] ])
  /\ keys entry = entry_keys.
Proof.
  cbv zeta. split; [reflexivity | ]. split; [reflexivity | ].
  assert (Hne : "{}" <> EmptyString) by discriminate.
  destruct (emitted_entry_fields Demo.env "tidb-cdc-changes" 0 (Demo.message_of "{}")
              _ "{}" (VObj []) _ (initial_world 0)
              eq_refl eq_refl Hne eq_refl eq_refl) as (H1 & H2 & _).
  split; [exact H1 | exact H2].
Defined.

(** C4 as stated fails: for the text
    [{"type":"update","old_data":{"id":1},"ts":5}] the record has oldData,
    changeTimestamp and the raw payload, and the entry that is serialised
    and logged has none of them. *)
Lemma emitted_entry_counterexample :
  let message := Demo.message_of Demo.update_text in
  let r := normalized Demo.update_payload in
  let entry := log_entry "0" "tidb-cdc-changes" 0 message
                         (String.length Demo.update_text) r in
  JSON_parse Demo.env Demo.update_text = inr Demo.update_payload
  /\ oldData r = Some (VObj [("id", VNum (num_of_nat 1))])
  /\ changeTimestamp r = Some (VNum (num_of_nat 5))
  /\ rawData r = Demo.update_payload
  /\ processMessage Demo.env "tidb-cdc-changes" 0 message (initial_world 0)
     = (Normal tt,
        add_events (initial_world 0)
          [ JsonParse Demo.update_text;
            Log INFO [LStr "timestamp,source,topic,partition,offset,changeType,table,database,primaryKey,changes,metadata"] ])
  /\ JSON_stringify Demo.env entry
     = inr "timestamp,source,topic,partition,offset,changeType,table,database,primaryKey,changes,metadata"
  /\ own_prop entry "oldData" = None
  /\ own_prop entry "changeTimestamp" = None
  /\ own_prop entry "rawPayload" = None
  /\ own_prop entry "rawData" = None.
Proof.
  cbv zeta. repeat split; reflexivity.
Qed.

Lemma empty_message_witness :
  let message := mkMessage (Some []) "7" "1700000000000" in
  Buffer_toString Demo.env [] = EmptyString
  /\ (value_ message = None \/ value_ message = Some [])
  /\ exists w',
      processMessage Demo.env "tidb-cdc-changes" 0 message (initial_world 0)
      = (Normal tt, w')
      /\ trace w' = [Log WARN [LStr "Received empty message"]]
      /\ count is_parse (trace w') = 0
      /\ count (is_log INFO) (trace w') = 0
      /\ count (is_log WARN) (trace w') = 1.
Proof.
  cbv zeta. split; [reflexivity | ]. split; [right; reflexivity | ].
  exact (empty_message_skipped Demo.env "tidb-cdc-changes" 0
           (mkMessage (Some []) "7" "1700000000000") (initial_world 0)
           eq_refl (or_intror eq_refl)).
Defined.

(** * Properties of start-up, shutdown and the health probe *)

Lemma clock_add_events w evs : clock (add_events w evs) = clock w.
Proof. reflexivity. Qed.

Lemma isRunning_add_events w evs : isRunning (add_events w evs) = isRunning w.
Proof. reflexivity. Qed.

Lemma attempt_time_0 t0 : attempt_time t0 0 = t0.
Proof. unfold attempt_time. cbn. lia. Qed.

Lemma attempt_time_S t0 k : attempt_time t0 (S k) = attempt_time (t0 + retryDelay) k.
Proof. unfold attempt_time. lia. Qed.

Section Connector.

Variable env : Env.
Implicit Types (w : World).

Ltac krun :=
  cbv beta iota zeta delta
      [m_bind m_ret m_throw m_catch when assign bind ret raise catch
       get put Monad_M MonadExc_M MonadState_M fst snd lift
       emit logger_info logger_warn logger_error kafka
       set_isRunning process_exit sleep];
  cbn [clock isRunning];
  rewrite ?clock_add_events, ?isRunning_add_events.

Ltac kcase :=
  match goal with
  | |- context [match broker env ?t ?op with _ => _ end] =>
      destruct (broker env t op) eqn:?
  end.

(** ** The connectivity test *)

Lemma testKafkaConnection_ok w :
  probe_ok env (clock w) = true ->
  testKafkaConnection env w
  = (Normal tt, add_events w [ Call AdminConnect; Call AdminListTopics;
                               Log INFO [LStr "Kafka connectivity verified"];
                               Call AdminDisconnect ]).
Proof.
  unfold probe_ok, succeeds, testKafkaConnection. intros H.
  repeat (krun; kcase; try discriminate). krun.
  rewrite !add_events_app. reflexivity.
Qed.

Lemma testKafkaConnection_fails w :
  probe_ok env (clock w) = false ->
  exists e evs,
    testKafkaConnection env w = (Throw e, add_events w evs)
    /\ count is_sleep evs = 0
    /\ count is_consumer_call evs = 0
    /\ count (is_call AdminConnect) evs = 1.
Proof.
  unfold probe_ok, succeeds, testKafkaConnection. intros H.
  repeat (krun; kcase; try discriminate); krun;
    rewrite ?add_events_app; do 2 eexists; (split; [reflexivity | ]); cbn; auto.
Qed.

(** ** [start] *)

Lemma start_succeeds w :
  start_ok env (clock w) = true ->
  start env w = (Normal tt, mkWorld (trace w ++ start_events env) true (clock w)).
Proof.
  unfold start_ok, subscribe_ok, succeeds, start. intros H.
  repeat (krun; kcase; try discriminate). krun.
  unfold add_events. cbn [trace isRunning clock].
  rewrite <- !app_assoc. reflexivity.
Qed.

(** When a call of [start] fails the process exits with status 1; the
    flag is set if the failing call is [consumer.run]. *)
Lemma start_fails w :
  start_ok env (clock w) = false ->
  exists evs,
    start env w
    = (Exit 1, mkWorld (trace w ++ evs)
                       (if subscribe_ok env (clock w) then true else isRunning w)
                       (clock w))
    /\ count is_sleep evs = 0
    /\ count (is_call ConsumerRun) evs
       = (if subscribe_ok env (clock w) then 1 else 0)
    /\ count (is_log ERROR) evs = 1.
Proof.
  unfold start_ok, subscribe_ok, succeeds, start. intros H.
  repeat (krun; kcase; try discriminate); krun;
    unfold add_events; cbn [trace isRunning clock andb];
    rewrite <- ?app_assoc; eexists; (split; [reflexivity | ]); cbn; auto.
Qed.

(** ** [stop] and the signal handlers *)

Lemma stop_not_running w :
  isRunning w = false -> stop env w = (Normal tt, w).
Proof. intros H. unfold stop. krun. rewrite H. reflexivity. Qed.

Lemma stop_disconnects w :
  isRunning w = true ->
  broker env (clock w) ConsumerDisconnect = None ->
  stop env w
  = (Normal tt,
     mkWorld (trace w ++ [ Log INFO [LStr "Stopping CDC Consumer..."];
                           Call ConsumerDisconnect;
                           Log INFO [LStr "Consumer stopped"] ])
             false (clock w)).
Proof.
  intros H Hb. unfold stop. krun. rewrite H. krun. rewrite Hb. krun.
  unfold add_events. cbn [trace isRunning clock].
  rewrite <- !app_assoc. reflexivity.
Qed.

Lemma stop_disconnect_fails w e :
  isRunning w = true ->
  broker env (clock w) ConsumerDisconnect = Some e ->
  stop env w
  = (Throw e,
     add_events w [ Log INFO [LStr "Stopping CDC Consumer..."];
                    Call ConsumerDisconnect ]).
Proof.
  intros H Hb. unfold stop. krun. rewrite H. krun. rewrite Hb.
  rewrite add_events_app. reflexivity.
Qed.

(** ** One attempt *)

(** The test fails on an attempt that is not the last: the error is
    logged and the loop goes on after the delay. *)
Lemma attempt_once_retries attempt w :
  probe_ok env (clock w) = false ->
  attempt <> maxRetries ->
  exists evs,
    attempt_once env attempt w
    = (Normal false, mkWorld (trace w ++ evs) (isRunning w) (clock w + retryDelay))
    /\ count is_sleep evs = 1
    /\ count is_consumer_call evs = 0
    /\ count (is_call AdminConnect) evs = 1.
Proof.
  intros Hp Hne. unfold attempt_once. krun.
  match goal with
  | |- context [testKafkaConnection env ?w'] =>
      destruct (testKafkaConnection_fails w' Hp) as (e & evs & -> & H1 & H2 & H3)
  end.
  krun. apply Nat.eqb_neq in Hne. rewrite Hne. krun.
  rewrite !add_events_app. unfold add_events. cbn [trace isRunning clock].
  rewrite <- !app_assoc.
  eexists. split; [reflexivity | ].
  rewrite !count_app, H1, H2, H3. cbn. auto.
Qed.

(** The test fails on the last attempt: the process exits with status 1. *)
Lemma attempt_once_gives_up w :
  probe_ok env (clock w) = false ->
  exists evs,
    attempt_once env maxRetries w = (Exit 1, add_events w evs)
    /\ count is_sleep evs = 0
    /\ count is_consumer_call evs = 0
    /\ count (is_call AdminConnect) evs = 1.
Proof.
  intros Hp. unfold attempt_once. krun.
  match goal with
  | |- context [testKafkaConnection env ?w'] =>
      destruct (testKafkaConnection_fails w' Hp) as (e & evs & -> & H1 & H2 & H3)
  end.
  krun. rewrite Nat.eqb_refl. krun.
  rewrite !add_events_app.
  eexists. split; [reflexivity | ].
  rewrite !count_app, H1, H2, H3. cbn. auto.
Qed.

(** The test passes and [start] returns: [startConsumer] returns, and the
    consumer is connected, subscribed and running. *)
Lemma attempt_once_starts attempt w :
  probe_ok env (clock w) = true ->
  start_ok env (clock w) = true ->
  exists evs,
    attempt_once env attempt w
    = (Normal true, mkWorld (trace w ++ evs) true (clock w))
    /\ count is_sleep evs = 0
    /\ count (is_call AdminConnect) evs = 1
    /\ count (is_call ConsumerConnect) evs = 1
    /\ count (is_call (ConsumerSubscribe (topic_name env))) evs = 1
    /\ count (is_call ConsumerRun) evs = 1.
Proof.
  intros Hp Hs. unfold attempt_once. krun.
  rewrite testKafkaConnection_ok by exact Hp. krun.
  rewrite start_succeeds by (rewrite !clock_add_events; exact Hs). krun.
  rewrite !add_events_app. unfold add_events, start_events. cbn [trace isRunning clock].
  rewrite <- !app_assoc.
  eexists. split; [reflexivity | ].
  cbn. rewrite String.eqb_refl. cbn. auto.
Qed.

(** The test passes and a call of [start] fails: [start] has ended the
    process before the [catch] block of the loop can see an error. *)
Lemma attempt_once_exits_in_start attempt w :
  probe_ok env (clock w) = true ->
  start_ok env (clock w) = false ->
  exists evs,
    attempt_once env attempt w
    = (Exit 1, mkWorld (trace w ++ evs)
                       (if subscribe_ok env (clock w) then true else isRunning w)
                       (clock w))
    /\ count is_sleep evs = 0.
Proof.
  intros Hp Hs. unfold attempt_once. krun.
  rewrite testKafkaConnection_ok by exact Hp. krun.
  match goal with
  | |- context [start env ?w'] =>
      destruct (start_fails w' Hs) as (evs & E & H1 & _)
  end.
  rewrite E. rewrite !clock_add_events, !isRunning_add_events.
  rewrite !add_events_app. unfold add_events. cbn [trace isRunning clock].
  rewrite <- !app_assoc.
  eexists. split; [reflexivity | ].
  rewrite !count_app, H1. reflexivity.
Qed.

(** ** The loop *)

(** [n] attempts in a row on which the test fails, none of them the last:
    the loop has slept [n] times and stands at attempt [attempt + n]. *)
Lemma startConsumer_from_retries n :
  forall fuel attempt w,
    attempt + n <= maxRetries ->
    (forall k, k < n -> probe_ok env (attempt_time (clock w) k) = false) ->
    exists evs,
      startConsumer_from env (n + fuel) attempt w
      = startConsumer_from env fuel (attempt + n)
          (mkWorld (trace w ++ evs) (isRunning w) (attempt_time (clock w) n))
      /\ count is_sleep evs = n
      /\ count is_consumer_call evs = 0
      /\ count (is_call AdminConnect) evs = n.
Proof.
  induction n as [ | n IH]; intros fuel attempt w Hle Hp.
  - exists []. rewrite Nat.add_0_r, attempt_time_0, app_nil_r.
    destruct w; cbn. auto.
  - assert (Hlt : attempt <> maxRetries) by lia.
    assert (H0 : probe_ok env (clock w) = false).
    { rewrite <- (attempt_time_0 (clock w)). apply Hp. lia. }
    destruct (attempt_once_retries attempt w H0 Hlt) as (evs & E & H1 & H2 & H3).
    cbn [Nat.add startConsumer_from].
    assert (Hc : (attempt <=? maxRetries)%nat = true) by (apply Nat.leb_le; lia).
    rewrite Hc. krun. rewrite E.
    destruct (IH fuel (S attempt)
                 (mkWorld (trace w ++ evs) (isRunning w) (clock w + retryDelay)))
      as (evs' & E' & H1' & H2' & H3').
    { lia. }
    { intros k Hk. cbn [clock]. rewrite <- attempt_time_S. apply Hp. lia. }
    rewrite E'. cbn [trace isRunning clock].
    exists (evs ++ evs')%list.
    rewrite <- app_assoc, <- attempt_time_S, <- plus_n_Sm.
    split; [reflexivity | ].
    rewrite !count_app, H1, H2, H3, H1', H2', H3'. auto.
Qed.

(** The fuel of [startConsumer] is enough: from attempt [attempt] the loop
    makes at most [S maxRetries - attempt] tests, and more fuel changes
    nothing. *)
Lemma startConsumer_from_fuel fuel :
  forall attempt w,
    S maxRetries - attempt <= fuel ->
    startConsumer_from env fuel attempt w
    = startConsumer_from env (S maxRetries - attempt) attempt w.
Proof.
  induction fuel as [ | fuel IH]; intros attempt w Hle.
  - replace (S maxRetries - attempt) with 0 by lia. reflexivity.
  - cbn [startConsumer_from].
    destruct (attempt <=? maxRetries)%nat eqn:Hc.
    + assert (Hin : attempt <= maxRetries) by (apply Nat.leb_le; exact Hc).
      replace (S maxRetries - attempt) with (S (S maxRetries - S attempt)) by lia.
      cbn [startConsumer_from]. rewrite Hc. krun.
      destruct (attempt_once env attempt w) as [[[ | ] | e | code] w1]; try reflexivity.
      apply IH. lia.
    + apply Nat.leb_gt in Hc.
      replace (S maxRetries - attempt) with 0 by lia. reflexivity.
Qed.

Lemma startConsumer_fuel_suffices extra w :
  startConsumer_from env (S maxRetries + extra) 1 w = startConsumer env w.
Proof.
  unfold startConsumer. rewrite startConsumer_from_fuel by lia.
  replace (S maxRetries - 1) with maxRetries by lia.
  symmetry. rewrite startConsumer_from_fuel by lia.
  replace (S maxRetries - 1) with maxRetries by lia. reflexivity.
Qed.

(** The loop from its first attempt, after [n] failed tests. *)
Lemma startConsumer_after_retries n w :
  n < maxRetries ->
  (forall k, k < n -> probe_ok env (attempt_time (clock w) k) = false) ->
  exists evs,
    startConsumer env w
    = (returned <- attempt_once env (S n) ;;
       if (returned : bool) then ret tt
       else startConsumer_from env (maxRetries - n) (S (S n)))
        (mkWorld (trace w ++ evs) (isRunning w) (attempt_time (clock w) n))
    /\ count is_sleep evs = n
    /\ count is_consumer_call evs = 0
    /\ count (is_call AdminConnect) evs = n.
Proof.
  intros Hn Hp. unfold startConsumer.
  replace (S maxRetries) with (n + S (maxRetries - n)) by lia.
  destruct (startConsumer_from_retries n (S (maxRetries - n)) 1 w) as (evs & E & H).
  { lia. }
  { exact Hp. }
  exists evs. split; [ | exact H].
  rewrite E. cbn [startConsumer_from Nat.add].
  assert (Hc : (S n <=? maxRetries)%nat = true) by (apply Nat.leb_le; lia).
  rewrite Hc. reflexivity.
Qed.

(** X12.  Retry on a failing connectivity test.  When the test fails on the
    first [n] attempts, [n] below the maximum, and the attempt after them
    succeeds, [startConsumer] returns: the consumer is connected,
    subscribed and running, after [n] delays of 15 seconds. *)
Lemma startConsumer_retries_until_ready n w :
  n < maxRetries ->
  (forall k, k < n -> probe_ok env (attempt_time (clock w) k) = false) ->
  probe_ok env (attempt_time (clock w) n) = true ->
  start_ok env (attempt_time (clock w) n) = true ->
  exists evs,
    startConsumer env w
    = (Normal tt, mkWorld (trace w ++ evs) true (attempt_time (clock w) n))
    /\ count is_sleep evs = n
    /\ count (is_call AdminConnect) evs = S n
    /\ count (is_call ConsumerConnect) evs = 1
    /\ count (is_call (ConsumerSubscribe (topic_name env))) evs = 1
    /\ count (is_call ConsumerRun) evs = 1.
Proof.
  intros Hn Hp Hok Hs.
  destruct (startConsumer_after_retries n w Hn Hp) as (evs & E & H1 & H2 & H3).
  rewrite E. krun.
  match goal with
  | |- context [attempt_once env ?a ?w'] =>
      destruct (attempt_once_starts a w' Hok Hs)
        as (evs' & E' & H1' & Ha & H2' & H3' & H4')
  end.
  rewrite E'. cbn [trace isRunning clock].
  exists (evs ++ evs')%list. rewrite <- app_assoc.
  split; [reflexivity | ].
  rewrite !count_app, H1, H3, H1', H2', H3', H4'.
  rewrite (count_none _ is_consumer_call evs), (count_none _ is_consumer_call evs),
    (count_none _ is_consumer_call evs); try assumption;
    try (intros [ | [ ] | | ]; cbn; congruence).
  rewrite Ha. repeat split; lia.
Qed.

(** X13.  Exhaustion.  When the connectivity test fails on all [maxRetries]
    attempts, the process exits with status 1 after [maxRetries - 1]
    delays; the consumer was never called, and [isRunning] is as it
    was. *)
Lemma startConsumer_exhausts_retries w :
  (forall k, k < maxRetries -> probe_ok env (attempt_time (clock w) k) = false) ->
  exists evs,
    startConsumer env w
    = (Exit 1, mkWorld (trace w ++ evs) (isRunning w)
                       (attempt_time (clock w) (maxRetries - 1)))
    /\ count is_sleep evs = maxRetries - 1
    /\ count (is_call AdminConnect) evs = maxRetries
    /\ count is_consumer_call evs = 0.
Proof.
  intros Hp.
  destruct (startConsumer_after_retries (maxRetries - 1) w) as (evs & E & H1 & H2 & H3).
  { unfold maxRetries. lia. }
  { intros k Hk. apply Hp. lia. }
  rewrite E. krun.
  match goal with
  | |- context [attempt_once env ?a ?w'] =>
      change a with maxRetries;
      destruct (attempt_once_gives_up w') as (evs' & E' & H1' & H2' & H3')
  end.
  { cbn [clock]. apply Hp. unfold maxRetries. lia. }
  rewrite E'. unfold add_events. cbn [trace isRunning clock].
  exists (evs ++ evs')%list. rewrite <- app_assoc.
  split; [reflexivity | ].
  rewrite !count_app, H1, H2, H3, H1', H2', H3'. unfold maxRetries. repeat split; lia.
Qed.

(** C3, where the code departs from it.  When the connectivity test
    passes and a call of [start] ([consumer.connect], [subscribe] or
    [run]) fails, the process exits with status 1 in that attempt: the
    failure is not retried, whatever the broker would do 15 seconds
    later. *)
Theorem start_failure_is_not_retried n w :
  n < maxRetries ->
  (forall k, k < n -> probe_ok env (attempt_time (clock w) k) = false) ->
  probe_ok env (attempt_time (clock w) n) = true ->
  start_ok env (attempt_time (clock w) n) = false ->
  exists evs w',
    startConsumer env w = (Exit 1, w')
    /\ trace w' = (trace w ++ evs)%list
    /\ clock w' = attempt_time (clock w) n
    /\ count is_sleep evs = n.
Proof.
  intros Hn Hp Hok Hs.
  destruct (startConsumer_after_retries n w Hn Hp) as (evs & E & H1 & H2 & H3).
  rewrite E. krun.
  match goal with
  | |- context [attempt_once env ?a ?w'] =>
      destruct (attempt_once_exits_in_start a w' Hok Hs) as (evs' & E' & H1')
  end.
  rewrite E'. cbn [trace isRunning clock].
  exists (evs ++ evs')%list. eexists. split; [reflexivity | ].
  cbn [trace clock]. rewrite <- app_assoc.
  split; [reflexivity | ]. split; [reflexivity | ].
  rewrite count_app, H1, H1'. lia.
Qed.

(** C5, as the code has it.  On a termination signal received while the
    processor is running, the consumer is disconnected and then the
    process exits with status 0, when the disconnect succeeds.  When the
    processor is not running, the process exits with status 0 and no
    disconnect is attempted.  When the disconnect throws, nothing catches
    the error: the handler ends with it, it is not logged, [isRunning]
    stays true and [process.exit(0)] is not reached. *)
Theorem shutdown_on_signal :
  forall signal w,
    let received :=
      Log INFO [LStr ("Received " ++ signal ++ ", shutting down gracefully...")] in
    (isRunning w = true ->
     broker env (clock w) ConsumerDisconnect = None ->
     on_signal env signal w
     = (Exit 0,
        mkWorld (trace w ++ [ received;
                              Log INFO [LStr "Stopping CDC Consumer..."];
                              Call ConsumerDisconnect;
                              Log INFO [LStr "Consumer stopped"] ])
                false (clock w)))
    /\ (isRunning w = false ->
        on_signal env signal w = (Exit 0, add_events w [received]))
    /\ (forall e,
           isRunning w = true ->
           broker env (clock w) ConsumerDisconnect = Some e ->
           on_signal env signal w
           = (Throw e,
              add_events w [ received;
                             Log INFO [LStr "Stopping CDC Consumer..."];
                             Call ConsumerDisconnect ])).
Proof.
  intros signal w received. unfold on_signal. fold received.
  split; [ | split].
  - intros Hr Hb. krun.
    rewrite stop_disconnects by assumption. krun.
    unfold add_events. cbn [trace isRunning clock]. rewrite <- app_assoc. reflexivity.
  - intros Hr. krun. rewrite stop_not_running by assumption. krun. reflexivity.
  - intros e Hr Hb. krun.
    rewrite (stop_disconnect_fails _ e) by assumption. krun.
    rewrite add_events_app. reflexivity.
Qed.

(** C7.  The health probe answers an object with the three properties
    status, timestamp and service; status is "healthy" exactly when
    [isRunning] is true and "unhealthy" exactly when it is false.  The flag
    is false when the process starts; [start] sets it exactly when
    [consumer.connect] and [consumer.subscribe] have succeeded; a start-up
    attempt whose connectivity test fails, and the processing of messages,
    leave it as it is; it is false again when [stop] has returned. *)
Theorem health_reports_running :
  (forall w,
      exists body,
        health env w = (Normal body, w)
        /\ keys body = ["status"; "timestamp"; "service"]
        /\ own_prop body "timestamp" = Some (VStr (toISOString env (clock w)))
        /\ own_prop body "service" = Some (VStr "cdc-consumer")
        /\ (own_prop body "status" = Some (VStr "healthy") <-> isRunning w = true)
        /\ (own_prop body "status" = Some (VStr "unhealthy") <-> isRunning w = false))
  /\ (forall t0, isRunning (initial_world t0) = false)
  /\ (forall w,
         isRunning w = false ->
         isRunning (snd (start env w)) = subscribe_ok env (clock w))
  /\ (forall w w', start env w = (Normal tt, w') -> isRunning w' = true)
  /\ (forall attempt w,
         probe_ok env (clock w) = false ->
         isRunning (snd (attempt_once env attempt w)) = isRunning w)
  /\ (forall messages w, isRunning (snd (deliver env messages w)) = isRunning w)
  /\ (forall w w', stop env w = (Normal tt, w') -> isRunning w' = false).
Proof.
  split.
  { intros w. unfold health. krun. eexists. split; [reflexivity | ].
    cbn. repeat (split; [reflexivity | ]).
    destruct (isRunning w); split; split; intros H; try reflexivity; discriminate. }
  split; [reflexivity | ].
  split.
  { intros w Hr. destruct (start_ok env (clock w)) eqn:Hs.
    - rewrite start_succeeds by assumption. cbn.
      unfold start_ok in Hs. apply andb_prop in Hs. destruct Hs as [-> _]. reflexivity.
    - destruct (start_fails w Hs) as (evs & -> & _). cbn. rewrite Hr.
      destruct (subscribe_ok env (clock w)); reflexivity. }
  split.
  { intros w w' E. destruct (start_ok env (clock w)) eqn:Hs.
    - rewrite start_succeeds in E by assumption. injection E as <-. reflexivity.
    - destruct (start_fails w Hs) as (evs & E' & _). congruence. }
  split.
  { intros attempt w Hp. destruct (Nat.eq_dec attempt maxRetries) as [-> | Hne].
    - destruct (attempt_once_gives_up w Hp) as (evs & -> & _). reflexivity.
    - destruct (attempt_once_retries attempt w Hp Hne) as (evs & -> & _). reflexivity. }
  split.
  { intros messages w. destruct (deliver_returns env messages w) as (evs & ->).
    reflexivity. }
  intros w w' E. destruct (isRunning w) eqn:Hr.
  - destruct (broker env (clock w) ConsumerDisconnect) as [e | ] eqn:Hb.
    + rewrite (stop_disconnect_fails w e) in E by assumption. discriminate.
    + rewrite stop_disconnects in E by assumption. injection E as <-. reflexivity.
  - rewrite stop_not_running in E by assumption. injection E as <-. exact Hr.
Qed.

End Connector.

Lemma start_failure_witness :
  let env := Demo.env_with Demo.stringify (Demo.consumer_up_from 15000) in
  let w := initial_world 0 in
  0 < maxRetries
  /\ probe_ok env (attempt_time (clock w) 0) = true
  /\ start_ok env (attempt_time (clock w) 0) = false
  /\ start_ok env (attempt_time (clock w) 1) = true
  /\ exists evs w',
      startConsumer env w = (Exit 1, w')
      /\ trace w' = (trace w ++ evs)%list
      /\ clock w' = attempt_time (clock w) 0
      /\ count is_sleep evs = 0.
Proof.
  cbv zeta.
  assert (H0 : 0 < maxRetries) by (unfold maxRetries; lia).
  split; [exact H0 | ]. split; [reflexivity | ]. split; [reflexivity | ].
  split; [reflexivity | ].
  refine (start_failure_is_not_retried
            (Demo.env_with Demo.stringify (Demo.consumer_up_from 15000))
            0 (initial_world 0) H0 _ eq_refl eq_refl).
  intros k Hk. lia.
Defined.

(** C5 as stated fails: when [consumer.disconnect()] throws, the handler
    of SIGTERM ends with that error; no error is logged and the process
    does not exit with status 0. *)
Lemma shutdown_counterexample :
  let env := Demo.env_with Demo.stringify Demo.disconnect_fails in
  let w := mkWorld [] true 0 in
  on_signal env "SIGTERM" w
  = (Throw (Error "Disconnect failed"),
     mkWorld [ Log INFO [LStr "Received SIGTERM, shutting down gracefully..."];
               Log INFO [LStr "Stopping CDC Consumer..."];
               Call ConsumerDisconnect ]
             true 0)
  /\ fst (on_signal env "SIGTERM" w) <> Exit 0
  /\ count (is_log ERROR) (trace (snd (on_signal env "SIGTERM" w))) = 0.
Proof.
  cbv zeta. split; [reflexivity | ]. split; [discriminate | reflexivity].
Qed.

Lemma shutdown_witness :
  let failing := Demo.env_with Demo.stringify Demo.disconnect_fails in
  let received :=
    Log INFO [LStr "Received SIGINT, shutting down gracefully..."] in
  on_signal Demo.env "SIGINT" (mkWorld [] true 0)
  = (Exit 0,
     mkWorld [ received;
               Log INFO [LStr "Stopping CDC Consumer..."];
               Call ConsumerDisconnect;
               Log INFO [LStr "Consumer stopped"] ]
             false 0)
  /\ on_signal Demo.env "SIGINT" (initial_world 0)
     = (Exit 0, add_events (initial_world 0) [received])
  /\ on_signal failing "SIGINT" (mkWorld [] true 0)
     = (Throw (Error "Disconnect failed"),
        add_events (mkWorld [] true 0)
          [ received;
            Log INFO [LStr "Stopping CDC Consumer..."];
            Call ConsumerDisconnect ]).
Proof.
  cbv zeta.
  split; [ | split].
  - exact (proj1 (shutdown_on_signal Demo.env "SIGINT" (mkWorld [] true 0))
             eq_refl eq_refl).
  - exact (proj1 (proj2 (shutdown_on_signal Demo.env "SIGINT" (initial_world 0)))
             eq_refl).
  - exact (proj2 (proj2 (shutdown_on_signal
                           (Demo.env_with Demo.stringify Demo.disconnect_fails)
                           "SIGINT" (mkWorld [] true 0)))
             (Error "Disconnect failed") eq_refl eq_refl).
Defined.

Lemma health_witness :
  let down := Demo.env_with Demo.stringify (Demo.broker_up_from 30000) in
  let w := initial_world 0 in
  (exists body,
      health Demo.env w = (Normal body, w)
      /\ own_prop body "status" = Some (VStr "unhealthy"))
  /\ isRunning (snd (start Demo.env w)) = true
  /\ (exists w', start Demo.env w = (Normal tt, w') /\ isRunning w' = true)
  /\ isRunning (snd (start down w)) = false
  /\ isRunning (snd (attempt_once down 1 w)) = false
  /\ (exists body w',
         startConsumer Demo.env w = (Normal tt, w')
         /\ health Demo.env w' = (Normal body, w')
         /\ own_prop body "status" = Some (VStr "healthy"))
  /\ (exists w', stop Demo.env (mkWorld [] true 0) = (Normal tt, w')
                 /\ isRunning w' = false).
Proof.
  cbv zeta.
  destruct (health_reports_running Demo.env) as (Hh & _ & Hs & Hn & _ & _ & Hstop).
  destruct (health_reports_running
              (Demo.env_with Demo.stringify (Demo.broker_up_from 30000)))
    as (_ & _ & Hs' & _ & Ha & _ & _).
  split.
  { destruct (Hh (initial_world 0)) as (body & E & _ & _ & _ & _ & Hu).
    exists body. split; [exact E | ]. apply Hu. reflexivity. }
  split; [exact (Hs (initial_world 0) eq_refl) | ].
  split.
  { eexists. split; [reflexivity | ]. apply (Hn (initial_world 0)). reflexivity. }
  split; [exact (Hs' (initial_world 0) eq_refl) | ].
  split; [exact (Ha 1 (initial_world 0) eq_refl) | ].
  split.
  { destruct (startConsumer Demo.env (initial_world 0)) as [c w'] eqn:E.
    vm_compute in E. injection E as <- <-.
    match goal with
    | |- exists body w', (_, ?w0) = _ /\ _ =>
        destruct (Hh w0) as (body & E & _ & _ & _ & Hy & _);
        exists body, w0
    end.
    split; [reflexivity | ]. split; [exact E | ]. apply Hy. reflexivity. }
  eexists. split; [reflexivity | ].
  apply (Hstop (mkWorld [] true 0)). reflexivity.
Defined.

(** * Further properties of the normaliser *)

Section NormaliserFields.

Implicit Types (cdcData first : value) (rest : list value) (w : World).

(** X1.  On every payload that is not null, changeType, database and table
    are the payload's [type], [database] and [table] when those are truthy,
    and "unknown", null and null when not; this holds also when the [try]
    block is ended later by a null first row, because these three are
    assigned before [data] is looked at. *)
Theorem leading_fields_survive_abort cdcData :
  nullish cdcData = false ->
  changeType (normalized cdcData)
  = (if truthy (prop cdcData "type") then prop cdcData "type" else VStr "unknown")
  /\ database (normalized cdcData)
     = (if truthy (prop cdcData "database") then prop cdcData "database" else VNull)
  /\ table (normalized cdcData)
     = (if truthy (prop cdcData "table") then prop cdcData "table" else VNull).
Proof.
  intros Hn. repeat split; start_extract Hn; run_extract; reflexivity.
Qed.

Lemma leading_fields_witness :
  let cdcData :=
    VObj [ ("type", VStr "insert"); ("database", VStr "sre_test");
           ("table", VNum (S754_zero false)); ("data", VArr [VNull]) ] in
  nullish cdcData = false
  /\ extraction_completes cdcData = false
  /\ changeType (normalized cdcData) = VStr "insert"
  /\ database (normalized cdcData) = VStr "sre_test"
  /\ table (normalized cdcData) = VNull.
Proof.
  cbv zeta. split; [reflexivity | ]. split; [reflexivity | ].
  exact (leading_fields_survive_abort
           (VObj [ ("type", VStr "insert"); ("database", VStr "sre_test");
                   ("table", VNum (S754_zero false)); ("data", VArr [VNull]) ])
           eq_refl).
Defined.

(** X2.  [oldData] is the payload's [old_data] when the [try] block runs
    to its end and [old_data] is truthy; in every other case the record
    has no [oldData]. *)
Theorem oldData_normalized cdcData :
  oldData (normalized cdcData) =
  if extraction_completes cdcData && truthy (prop cdcData "old_data")
  then Some (prop cdcData "old_data") else None.
Proof.
  unfold extraction_completes, first_row_unreadable.
  destruct (nullish cdcData) eqn:Hn.
  - rewrite normalized_nullish by assumption. reflexivity.
  - start_extract Hn. run_extract; first [reflexivity | cbn in *; congruence].
Qed.

(** X3.  The record always keeps the payload it was made from, whole, in
    [rawData]: no assignment of the [try] block touches it. *)
Theorem rawData_retained cdcData : rawData (normalized cdcData) = cdcData.
Proof.
  destruct (nullish cdcData) eqn:Hn.
  - rewrite normalized_nullish by assumption. reflexivity.
  - start_extract Hn. run_extract; reflexivity.
Qed.

(** X4.  The primary key is read from the first row alone: when the first
    element of [data] has an [id] property, whatever its value (null
    included), primaryKey is [{ id: value }] and changes is the whole
    array; the other rows play no part. *)
Theorem primaryKey_from_first_row cdcData first rest v :
  own_prop cdcData "data" = Some (VArr (first :: rest)) ->
  own_prop first "id" = Some v ->
  is_undefined v = false ->
  primaryKey (normalized cdcData) = VObj [("id", v)]
  /\ changes (normalized cdcData) = VArr (first :: rest).
Proof.
  intros Hd Hid Hv.
  rewrite primaryKey_normalized, changes_normalized.
  rewrite (prop_present _ _ _ Hd), (own_prop_not_nullish _ _ _ Hd), has_rows_cons.
  cbn [index nth].
  rewrite (own_prop_not_nullish _ _ _ Hid), (prop_present _ _ _ Hid), Hv.
  split; reflexivity.
Qed.

Lemma primaryKey_from_first_row_witness :
  let first := VObj [("id", VNull); ("name", VStr "a")] in
  let second := VObj [("id", VNum (num_of_nat 7))] in
  let cdcData := VObj [("data", VArr [first; second])] in
  own_prop cdcData "data" = Some (VArr [first; second])
  /\ own_prop first "id" = Some VNull
  /\ is_undefined VNull = false
  /\ primaryKey (normalized cdcData) = VObj [("id", VNull)]
  /\ changes (normalized cdcData) = VArr [first; second].
Proof.
  cbv zeta. split; [reflexivity | ]. split; [reflexivity | ]. split; [reflexivity | ].
  exact (primaryKey_from_first_row
           (VObj [("data", VArr [VObj [("id", VNull); ("name", VStr "a")];
                                 VObj [("id", VNum (num_of_nat 7))]])])
           (VObj [("id", VNull); ("name", VStr "a")])
           [VObj [("id", VNum (num_of_nat 7))]] VNull eq_refl eq_refl eq_refl).
Defined.

(** X5.  A null first row costs more than the primary key: the read of
    [firstRow.id] throws, so the record keeps primaryKey null and changes
    empty and gets neither [oldData] nor [changeTimestamp], whatever
    [old_data], [ts] and [timestamp] are; the TypeError is logged once and
    the record is returned. *)
Theorem null_first_row_ends_extraction cdcData rest w :
  own_prop cdcData "data" = Some (VArr (VNull :: rest)) ->
  processDatabaseChange cdcData w
  = (Normal (normalized cdcData),
     add_events w
       [Log ERROR [LStr "Error processing CDC data structure:";
                   LErr (TypeError "Cannot read properties of null (reading 'id')")]])
  /\ primaryKey (normalized cdcData) = VNull
  /\ changes (normalized cdcData) = VObj []
  /\ oldData (normalized cdcData) = None
  /\ changeTimestamp (normalized cdcData) = None.
Proof.
  intros Hd.
  assert (Hn : nullish cdcData = false) by exact (own_prop_not_nullish _ _ _ Hd).
  assert (Hc : extraction_completes cdcData = false).
  { unfold extraction_completes, first_row_unreadable.
    rewrite Hn, (prop_present _ _ _ Hd), has_rows_cons. reflexivity. }
  split.
  { rewrite processDatabaseChange_eq. f_equal. f_equal.
    unfold normaliser_log, extract, get_prop. rewrite Hn, (prop_present _ _ _ Hd).
    run_extract; first [reflexivity | cbn in *; congruence]. }
  rewrite primaryKey_normalized, changes_normalized, oldData_normalized,
    changeTimestamp_normalized, Hc, Hn, (prop_present _ _ _ Hd), has_rows_cons.
  repeat split; reflexivity.
Qed.

Lemma null_first_row_witness :
  let cdcData :=
    VObj [ ("data", VArr [VNull; VObj [("id", VNum (num_of_nat 2))]]);
           ("old_data", VObj [("id", VNum (num_of_nat 1))]);
           ("ts", VNum (num_of_nat 5)) ] in
  own_prop cdcData "data" = Some (VArr [VNull; VObj [("id", VNum (num_of_nat 2))]])
  /\ truthy (prop cdcData "old_data") = true
  /\ truthy (prop cdcData "ts") = true
  /\ oldData (normalized cdcData) = None
  /\ changeTimestamp (normalized cdcData) = None.
Proof.
  cbv zeta. split; [reflexivity | ]. split; [reflexivity | ]. split; [reflexivity | ].
  destruct (null_first_row_ends_extraction
              (VObj [ ("data", VArr [VNull; VObj [("id", VNum (num_of_nat 2))]]);
                      ("old_data", VObj [("id", VNum (num_of_nat 1))]);
                      ("ts", VNum (num_of_nat 5)) ])
              [VObj [("id", VNum (num_of_nat 2))]] (initial_world 0) eq_refl)
    as (_ & _ & _ & H1 & H2).
  split; [exact H1 | exact H2].
Defined.

(** X6.  The normaliser is silent exactly when the [try] block runs to
    its end: it leaves the world as it found it if and only if the payload
    is not null and [data] is not a non-empty array with a null first
    element. *)
Theorem normaliser_silent_iff_complete cdcData w :
  snd (processDatabaseChange cdcData w) = w <-> extraction_completes cdcData = true.
Proof.
  rewrite processDatabaseChange_eq. cbn [snd]. split.
  - intros H. destruct (extraction_completes cdcData) eqn:Hc; [reflexivity | ].
    destruct (normaliser_log_aborted cdcData Hc) as (m & E). rewrite E in H.
    apply (f_equal (fun x => length (trace x))) in H.
    cbn [trace add_events] in H. rewrite length_app in H. cbn in H. lia.
  - intros Hc. rewrite (normaliser_log_completes cdcData Hc). apply add_events_nil.
Qed.

End NormaliserFields.

(** * Further properties of the message loop *)

(** The normaliser logs nothing, or one error. *)
Lemma normaliser_log_shape cdcData :
  normaliser_log cdcData = []
  \/ exists e,
      normaliser_log cdcData
      = [Log ERROR [LStr "Error processing CDC data structure:"; LErr e]].
Proof.
  unfold normaliser_log.
  destruct (fst (extract cdcData (initial_result cdcData))); eauto.
Qed.

Section MessageLoopAccounting.

Variable env : Env.
Implicit Types (w : World) (m : string * nat * Message).

(** What one message adds to the trace: a warning and no parse when it has
    no text, one parse and no warning when it has; never a call on the
    Kafka client, never a delay. *)
Lemma eachMessage_accounting m w :
  exists evs,
    eachMessage env m w = (Normal tt, add_events w evs)
    /\ count is_parse evs = (if has_text env m then 1 else 0)
    /\ count (is_log WARN) evs = (if has_text env m then 0 else 1)
    /\ count is_any_call evs = 0
    /\ count is_sleep evs = 0.
Proof.
  destruct m as [[topic partition] message]. unfold eachMessage, has_text. cbn [snd].
  destruct (value_ message) as [bytes | ] eqn:Hv.
  - cbn [option_map].
    destruct (Buffer_toString env bytes) as [ | c text'] eqn:Ht.
    + eexists. split.
      * apply processMessage_empty. right. rewrite Hv. cbn. rewrite Ht. reflexivity.
      * cbn. auto.
    + assert (Hne : String c text' <> EmptyString) by discriminate.
      destruct (JSON_parse env (String c text')) as [parseError | cdcData] eqn:Hp.
      * eexists. split.
        { exact (processMessage_unparseable env _ _ _ _ _ _ w Hv Ht Hne Hp). }
        cbn. auto.
      * eexists. split.
        { exact (processMessage_parsed env _ _ _ _ _ _ w Hv Ht Hne Hp). }
        change (JsonParse (String c text') :: ?l)
          with ([JsonParse (String c text')] ++ l)%list.
        rewrite !count_app.
        destruct (normaliser_log_shape cdcData) as [-> | (e & ->)];
          destruct (JSON_stringify env _); cbn; auto.
  - eexists. split.
    + apply processMessage_empty. left. rewrite Hv. reflexivity.
    + cbn. auto.
Qed.


(** X8.  Over a whole batch, [JSON.parse] is called once for each message
    that has a text and never for the others, each message without a text
    gets one warning, and the loop itself never calls the Kafka client,
    never waits and leaves [isRunning] and the clock alone. *)
Theorem deliver_accounting (messages : list (string * nat * Message)) :
  forall w,
    exists evs,
      deliver env messages w = (Normal tt, add_events w evs)
      /\ count is_parse evs = length (filter (has_text env) messages)
      /\ count (is_log WARN) evs
         = length (filter (fun m => negb (has_text env m)) messages)
      /\ count is_any_call evs = 0
      /\ count is_sleep evs = 0.
Proof.
  induction messages as [ | m rest IH]; intros w.
  - exists []. rewrite add_events_nil. cbn. auto.
  - destruct (eachMessage_accounting m w) as (evs & E & H1 & H2 & H3 & H4).
    destruct (IH (add_events w evs)) as (evs' & E' & H1' & H2' & H3' & H4').
    exists (evs ++ evs')%list. split.
    + cbn [deliver]. mrun. rewrite E. mrun. rewrite E', add_events_app. reflexivity.
    + rewrite !count_app, H1, H2, H3, H4, H1', H2', H3', H4'. cbn [filter].
      destruct (has_text env m); cbn; auto.
Qed.

(** X9.  A message whose text is the JSON [null] is not dropped: the
    normaliser logs the TypeError of its first read, returns the record of
    defaults, and the entry of that record is serialised and logged. *)
Theorem null_payload_still_emitted topic partition message bytes text line w :
  value_ message = Some bytes ->
  Buffer_toString env bytes = text ->
  text <> EmptyString ->
  JSON_parse env text = inr VNull ->
  JSON_stringify env
    (log_entry (toISOString env (clock w)) topic partition message
               (length bytes) (initial_result VNull)) = inr line ->
  processMessage env topic partition message w
  = (Normal tt,
     add_events w
       [ JsonParse text;
         Log ERROR [LStr "Error processing CDC data structure:";
                    LErr (TypeError "Cannot read properties of null (reading 'type')")];
         Log INFO [LStr line] ]).
Proof.
  intros Hv Ht Hne Hp Hs.
  rewrite (processMessage_parsed env _ _ _ _ _ _ w Hv Ht Hne Hp).
  change (normalized VNull) with (initial_result VNull). rewrite Hs. reflexivity.
Qed.

End MessageLoopAccounting.

Lemma null_payload_witness :
  let message := Demo.message_of "null" in
  let w := initial_world 0 in
  JSON_parse Demo.env "null" = inr VNull
  /\ processMessage Demo.env "tidb-cdc-changes" 0 message w
     = (Normal tt,
        add_events w
          [ JsonParse "null";
            Log ERROR [LStr "Error processing CDC data structure:";
                       LErr (TypeError "Cannot read properties of null (reading 'type')")];
            Log INFO [LStr "timestamp,source,topic,partition,offset,changeType,table,database,primaryKey,changes,metadata"] ]).
Proof.
  cbv zeta. split; [reflexivity | ].
  assert (Hne : "null" <> EmptyString) by discriminate.
  exact (null_payload_still_emitted Demo.env "tidb-cdc-changes" 0
           (Demo.message_of "null") _ "null" _ (initial_world 0)
           eq_refl eq_refl Hne eq_refl eq_refl).
Defined.

(** * Further properties of start-up and shutdown *)

Ltac xrun :=
  cbv beta iota zeta delta
      [m_bind m_ret m_throw m_catch when assign bind ret raise catch
       get put Monad_M MonadExc_M MonadState_M fst snd lift
       emit logger_info logger_warn logger_error kafka
       set_isRunning process_exit sleep];
  cbn [clock isRunning];
  rewrite ?clock_add_events, ?isRunning_add_events.

Ltac xcase :=
  match goal with
  | |- context [match broker ?env ?t ?op with _ => _ end] =>
      destruct (broker env t op) eqn:?
  end.

Section ConnectorOutcomes.

Variable env : Env.
Implicit Types (w : World).

(** X10.  The connectivity test always closes the admin client: on every
    path it calls [admin.connect] once and [admin.disconnect] at least
    once (twice when the first [disconnect] is the call that failed); it
    returns or throws, and never touches the consumer, never waits and
    never ends the process. *)
Theorem testKafkaConnection_always_disconnects w :
  exists c evs,
    testKafkaConnection env w = (c, add_events w evs)
    /\ (c = Normal tt \/ exists e, c = Throw e)
    /\ count (is_call AdminConnect) evs = 1
    /\ 1 <= count (is_call AdminDisconnect) evs <= 2
    /\ count is_consumer_call evs = 0
    /\ count is_sleep evs = 0.
Proof.
  unfold testKafkaConnection.
  repeat (xrun; xcase); xrun; rewrite ?add_events_app;
    do 2 eexists; (split; [reflexivity | ]); cbn; eauto 10.
Qed.


(** What [start] does, by the calls that succeed. *)
Lemma start_outcome w :
  exists evs,
    start env w
    = (if start_ok env (clock w) then Normal tt else Exit 1,
       mkWorld (trace w ++ evs)
               (if subscribe_ok env (clock w) then true else isRunning w)
               (clock w))
    /\ count (is_call ConsumerConnect) evs = 1
    /\ (forall t,
           count (is_call (ConsumerSubscribe t)) evs
           = if succeeds env (clock w) ConsumerConnect && String.eqb (topic_name env) t
             then 1 else 0)
    /\ count (is_call ConsumerRun) evs
       = (if subscribe_ok env (clock w) then 1 else 0)
    /\ count (is_log ERROR) evs = (if start_ok env (clock w) then 0 else 1)
    /\ count is_sleep evs = 0
    /\ count (is_call AdminConnect) evs = 0.
Proof.
  unfold start_ok, subscribe_ok, succeeds, start.
  repeat (xrun; xcase); xrun;
    unfold add_events; cbn [trace isRunning clock andb];
    rewrite <- ?app_assoc; eexists; (split; [reflexivity | ]);
    cbn; repeat split; auto;
    intros t; destruct (String.eqb (topic_name env) t); reflexivity.
Qed.

(** X14.  [start] makes its calls in order and stops at the first that
    fails: [consumer.connect] is always called once; [subscribe] is called
    (once, with the configured topic and no other) only when [connect]
    succeeded, and [consumer.run] only when [subscribe] did.  [start]
    returns when all three succeed; otherwise it logs one error and ends
    the process with status 1.  [isRunning] is set exactly when [connect]
    and [subscribe] succeeded. *)
Theorem start_gates_its_calls w :
  exists evs,
    start env w
    = (if start_ok env (clock w) then Normal tt else Exit 1,
       mkWorld (trace w ++ evs)
               (if subscribe_ok env (clock w) then true else isRunning w)
               (clock w))
    /\ count (is_call ConsumerConnect) evs = 1
    /\ (forall t,
           count (is_call (ConsumerSubscribe t)) evs
           = if succeeds env (clock w) ConsumerConnect && String.eqb (topic_name env) t
             then 1 else 0)
    /\ count (is_call ConsumerRun) evs
       = (if subscribe_ok env (clock w) then 1 else 0)
    /\ count (is_log ERROR) evs = (if start_ok env (clock w) then 0 else 1).
Proof.
  destruct (start_outcome w) as (evs & E & H1 & H2 & H3 & H4 & _).
  exists evs. auto.
Qed.

(** X15.  The topic [start] subscribes to is the variable KAFKA_TOPIC of
    the environment when it is set and not empty, and "tidb-cdc-changes"
    when it is unset or empty. *)
Theorem start_subscribes_to_configured_topic w :
  succeeds env (clock w) ConsumerConnect = true ->
  exists evs,
    trace (snd (start env w)) = (trace w ++ evs)%list
    /\ forall t,
        count (is_call (ConsumerSubscribe t)) evs
        = if String.eqb
               (match KAFKA_TOPIC env with
                | Some (String c rest) => String c rest
                | _ => "tidb-cdc-changes"
                end) t
          then 1 else 0.
Proof.
  intros Hc. destruct (start_outcome w) as (evs & E & _ & H & _).
  exists evs. rewrite E. split; [reflexivity | ].
  intros t. rewrite H, Hc. unfold topic_name.
  destruct (KAFKA_TOPIC env) as [[ | c rest] | ]; reflexivity.
Qed.

End ConnectorOutcomes.

Section StartupOutcomes.

Variable env : Env.
Implicit Types (w : World).

(** One turn of the loop, by its three ways to end: the consumer runs,
    the loop goes on after the delay, or the process exits. *)
Lemma attempt_once_summary attempt w :
  exists c evs w',
    attempt_once env attempt w = (c, w')
    /\ trace w' = (trace w ++ evs)%list
    /\ count (is_call AdminConnect) evs = 1
    /\ ((c = Normal true /\ isRunning w' = true /\ clock w' = clock w
         /\ count is_sleep evs = 0 /\ count (is_call ConsumerConnect) evs = 1)
        \/ (c = Normal false /\ attempt <> maxRetries
            /\ isRunning w' = isRunning w /\ clock w' = (clock w + retryDelay)%Z
            /\ count is_sleep evs = 1 /\ count (is_call ConsumerConnect) evs = 0)
        \/ (c = Exit 1 /\ clock w' = clock w
            /\ count is_sleep evs = 0 /\ count (is_call ConsumerConnect) evs <= 1)).
Proof.
  assert (Hcc : forall ev, is_call ConsumerConnect ev = true -> is_consumer_call ev = true).
  { intros [ | [ ] | | ]; cbn; congruence. }
  destruct (probe_ok env (clock w)) eqn:Hp.
  - unfold attempt_once. xrun.
    rewrite testKafkaConnection_ok by exact Hp. xrun.
    match goal with
    | |- context [start env ?w0] => destruct (start_outcome env w0) as (evs & E & H1 & _ & _ & _ & H2 & H3)
    end.
    rewrite E. rewrite !clock_add_events, !isRunning_add_events.
    destruct (start_ok env (clock w)) eqn:Hs.
    + assert (Hsub : subscribe_ok env (clock w) = true).
      { unfold start_ok in Hs. apply andb_prop in Hs. tauto. }
      rewrite Hsub. xrun.
      rewrite !add_events_app. unfold add_events. cbn [trace isRunning clock].
      rewrite <- !app_assoc.
      do 3 eexists. split; [reflexivity | ]. cbn [trace isRunning clock].
      split; [reflexivity | ].
      rewrite !count_app, H1, H2, H3. cbn.
      split; [reflexivity | ]. left. repeat split; auto.
    + rewrite !add_events_app. unfold add_events. cbn [trace isRunning clock].
      rewrite <- !app_assoc.
      do 3 eexists. split; [reflexivity | ]. cbn [trace isRunning clock].
      split; [reflexivity | ].
      rewrite !count_app, H1, H2, H3. cbn.
      split; [reflexivity | ]. right. right. repeat split; auto.
  - destruct (Nat.eq_dec attempt maxRetries) as [-> | Hne].
    + destruct (attempt_once_gives_up env w Hp) as (evs & E & H1 & H2 & H3).
      do 3 eexists. split; [exact E | ]. cbn [trace clock add_events].
      split; [reflexivity | ]. split; [exact H3 | ].
      right. right. rewrite (count_none _ _ _ Hcc H2). repeat split; auto.
    + destruct (attempt_once_retries env attempt w Hp Hne) as (evs & E & H1 & H2 & H3).
      do 3 eexists. split; [exact E | ]. cbn [trace clock isRunning].
      split; [reflexivity | ]. split; [exact H3 | ].
      right. left. rewrite (count_none _ _ _ Hcc H2). repeat split; auto.
Qed.

(** The loop, from any attempt within the maximum and with fuel for the
    attempts that are left. *)
Lemma startConsumer_from_summary fuel :
  forall attempt w,
    attempt <= maxRetries ->
    maxRetries - attempt < fuel ->
    exists c evs w',
      startConsumer_from env fuel attempt w = (c, w')
      /\ trace w' = (trace w ++ evs)%list
      /\ ((c = Normal tt /\ isRunning w' = true
           /\ count (is_call ConsumerConnect) evs = 1)
          \/ c = Exit 1)
      /\ count is_sleep evs <= maxRetries - attempt
      /\ count (is_call AdminConnect) evs <= S maxRetries - attempt
      /\ count (is_call ConsumerConnect) evs <= 1
      /\ clock w' = (clock w + Z.of_nat (count is_sleep evs) * retryDelay)%Z.
Proof.
  induction fuel as [ | fuel IH]; intros attempt w Hle Hfuel; [lia | ].
  cbn [startConsumer_from].
  assert (Hc : (attempt <=? maxRetries)%nat = true) by (apply Nat.leb_le; exact Hle).
  rewrite Hc. xrun.
  destruct (attempt_once_summary attempt w)
    as (c & evs & w1 & E & Ht & Ha & [H | [H | H]]); rewrite E.
  - destruct H as (-> & Hr & Hk & Hs & Hcc). xrun.
    exists (Normal tt), evs, w1. rewrite Hs, Hcc, Ha, Hk. cbn [Z.of_nat].
    repeat split; auto; lia.
  - destruct H as (-> & Hne & Hr & Hk & Hs & Hcc).
    destruct (IH (S attempt) w1) as (c' & evs' & w2 & E' & Ht' & Ho & Hs' & Ha' & Hcc' & Hk');
      [lia | lia | ].
    rewrite E'. exists c', (evs ++ evs')%list, w2.
    split; [reflexivity | ].
    split; [rewrite Ht', Ht, app_assoc; reflexivity | ].
    rewrite !count_app, Hs, Hcc, Ha. cbn [Nat.add].
    split.
    { destruct Ho as [(-> & Hr' & Hc1) | ->]; [left | right]; auto. }
    repeat split; lia.
  - destruct H as (-> & Hk & Hs & Hcc).
    exists (Exit 1), evs, w1. rewrite Hs, Ha, Hk. cbn [Z.of_nat].
    repeat split; auto; lia.
Qed.

(** X16.  [startConsumer] never throws and never returns without a
    running consumer: either it returns with [isRunning] true, after one
    call of [consumer.connect], or the process exits with status 1. *)
Theorem startConsumer_returns_running_or_exits w :
  exists evs w',
    trace w' = (trace w ++ evs)%list
    /\ ((startConsumer env w = (Normal tt, w')
         /\ isRunning w' = true
         /\ count (is_call ConsumerConnect) evs = 1)
        \/ startConsumer env w = (Exit 1, w')).
Proof.
  destruct (startConsumer_from_summary (S maxRetries) 1 w)
    as (c & evs & w' & E & Ht & Ho & _); [unfold maxRetries; lia | lia | ].
  exists evs, w'. split; [exact Ht | ].
  unfold startConsumer. rewrite E.
  destruct Ho as [(-> & Hr & Hc) | ->]; [left | right]; auto.
Qed.

(** X17.  The bounds of start-up, whatever the broker does: at most
    [maxRetries] connectivity tests, at most [maxRetries - 1] delays, at
    most one call of [consumer.connect]; and the time that has passed is
    the number of delays times [retryDelay]. *)
Theorem startConsumer_bounds w :
  exists evs,
    trace (snd (startConsumer env w)) = (trace w ++ evs)%list
    /\ count (is_call AdminConnect) evs <= maxRetries
    /\ count is_sleep evs <= maxRetries - 1
    /\ count (is_call ConsumerConnect) evs <= 1
    /\ clock (snd (startConsumer env w))
       = (clock w + Z.of_nat (count is_sleep evs) * retryDelay)%Z.
Proof.
  destruct (startConsumer_from_summary (S maxRetries) 1 w)
    as (c & evs & w' & E & Ht & _ & Hs & Ha & Hc & Hk); [unfold maxRetries; lia | lia | ].
  exists evs. unfold startConsumer. rewrite E. cbn [snd].
  repeat split; auto; lia.
Qed.

(** X18.  [stop] is idempotent: once it has returned, the processor is
    not running, and calling it again changes nothing (no second
    disconnect, no log). *)
Theorem stop_idempotent w w1 :
  stop env w = (Normal tt, w1) ->
  isRunning w1 = false /\ stop env w1 = (Normal tt, w1).
Proof.
  intros E.
  assert (Hr : isRunning w1 = false).
  { destruct (isRunning w) eqn:Hw.
    - destruct (broker env (clock w) ConsumerDisconnect) as [e | ] eqn:Hb.
      + rewrite (stop_disconnect_fails env w e) in E by assumption. discriminate.
      + rewrite stop_disconnects in E by assumption. injection E as <-. reflexivity.
    - rewrite stop_not_running in E by assumption. injection E as <-. exact Hw. }
  split; [exact Hr | ]. apply stop_not_running. exact Hr.
Qed.

(** X19.  From start-up to shutdown.  When [startConsumer] has returned,
    the health probe answers "healthy"; a termination signal then
    disconnects the consumer once and ends the process with status 0,
    with [isRunning] false, provided the disconnect succeeds. *)
Theorem shutdown_after_startup signal w w1 :
  startConsumer env w = (Normal tt, w1) ->
  broker env (clock w1) ConsumerDisconnect = None ->
  (exists body,
      health env w1 = (Normal body, w1)
      /\ own_prop body "status" = Some (VStr "healthy"))
  /\ exists w2,
      on_signal env signal w1 = (Exit 0, w2)
      /\ isRunning w2 = false
      /\ count (is_call ConsumerDisconnect) (trace w2)
         = S (count (is_call ConsumerDisconnect) (trace w1)).
Proof.
  intros E Hb.
  assert (Hr : isRunning w1 = true).
  { destruct (startConsumer_from_summary (S maxRetries) 1 w)
      as (c & evs & w' & E' & _ & Ho & _); [unfold maxRetries; lia | lia | ].
    unfold startConsumer in E. rewrite E in E'. injection E' as <- <-.
    destruct Ho as [(_ & Hr & _) | Hx]; [exact Hr | discriminate]. }
  split.
  - unfold health. xrun. rewrite Hr. eexists. split; reflexivity.
  - unfold on_signal. xrun. rewrite stop_disconnects by assumption. xrun.
    eexists. split; [reflexivity | ]. unfold add_events. cbn [trace isRunning].
    split; [reflexivity | ].
    rewrite !count_app. cbn. lia.
Qed.

End StartupOutcomes.

Lemma startConsumer_retries_witness :
  let env := Demo.env_with Demo.stringify (Demo.broker_up_from 30000) in
  let w := initial_world 0 in
  2 < maxRetries
  /\ probe_ok env (attempt_time (clock w) 0) = false
  /\ probe_ok env (attempt_time (clock w) 1) = false
  /\ probe_ok env (attempt_time (clock w) 2) = true
  /\ start_ok env (attempt_time (clock w) 2) = true
  /\ exists evs,
      startConsumer env w = (Normal tt, mkWorld (trace w ++ evs) true 30000)
      /\ count is_sleep evs = 2
      /\ count (is_call AdminConnect) evs = 3
      /\ count (is_call ConsumerConnect) evs = 1
      /\ count (is_call (ConsumerSubscribe "tidb-cdc-changes")) evs = 1
      /\ count (is_call ConsumerRun) evs = 1.
Proof.
  cbv zeta.
  assert (H2 : 2 < maxRetries) by (unfold maxRetries; lia).
  split; [exact H2 | ].
  split; [reflexivity | ]. split; [reflexivity | ].
  split; [reflexivity | ]. split; [reflexivity | ].
  refine (startConsumer_retries_until_ready
            (Demo.env_with Demo.stringify (Demo.broker_up_from 30000))
            2 (initial_world 0) H2 _ eq_refl eq_refl).
  intros k Hk. destruct k as [ | [ | k]]; [reflexivity | reflexivity | lia].
Defined.

Lemma startConsumer_exhausts_witness :
  let env := Demo.env_with Demo.stringify Demo.broker_down in
  let w := initial_world 0 in
  (forall k, k < maxRetries -> probe_ok env (attempt_time (clock w) k) = false)
  /\ exists evs,
      startConsumer env w = (Exit 1, mkWorld (trace w ++ evs) false 135000)
      /\ count is_sleep evs = 9
      /\ count (is_call AdminConnect) evs = 10
      /\ count is_consumer_call evs = 0.
Proof.
  cbv zeta.
  assert (H : forall k, k < maxRetries ->
                        probe_ok (Demo.env_with Demo.stringify Demo.broker_down)
                                 (attempt_time (clock (initial_world 0)) k) = false).
  { intros k _. reflexivity. }
  split; [exact H | ].
  exact (startConsumer_exhausts_retries
           (Demo.env_with Demo.stringify Demo.broker_down) (initial_world 0) H).
Defined.

Lemma start_topic_witness :
  let configured :=
    mkEnv Demo.parse Demo.stringify string_of_list_byte string_of_Z
          (Some "orders-cdc") (fun _ _ => None) in
  let blank :=
    mkEnv Demo.parse Demo.stringify string_of_list_byte string_of_Z
          (Some EmptyString) (fun _ _ => None) in
  let w := initial_world 0 in
  succeeds configured (clock w) ConsumerConnect = true
  /\ succeeds blank (clock w) ConsumerConnect = true
  /\ (exists evs,
         trace (snd (start configured w)) = (trace w ++ evs)%list
         /\ count (is_call (ConsumerSubscribe "orders-cdc")) evs = 1
         /\ count (is_call (ConsumerSubscribe "tidb-cdc-changes")) evs = 0)
  /\ (exists evs,
         trace (snd (start blank w)) = (trace w ++ evs)%list
         /\ count (is_call (ConsumerSubscribe "tidb-cdc-changes")) evs = 1).
Proof.
  cbv zeta. split; [reflexivity | ]. split; [reflexivity | ].
  split.
  - destruct (start_subscribes_to_configured_topic
                (mkEnv Demo.parse Demo.stringify string_of_list_byte string_of_Z
                       (Some "orders-cdc") (fun _ _ => None))
                (initial_world 0) eq_refl) as (evs & Ht & H).
    exists evs. split; [exact Ht | ].
    split; [exact (H "orders-cdc") | exact (H "tidb-cdc-changes")].
  - destruct (start_subscribes_to_configured_topic
                (mkEnv Demo.parse Demo.stringify string_of_list_byte string_of_Z
                       (Some EmptyString) (fun _ _ => None))
                (initial_world 0) eq_refl) as (evs & Ht & H).
    exists evs. split; [exact Ht | exact (H "tidb-cdc-changes")].
Defined.

Lemma stop_idempotent_witness :
  let w := mkWorld [] true 0 in
  let w1 :=
    mkWorld [ Log INFO [LStr "Stopping CDC Consumer..."];
              Call ConsumerDisconnect;
              Log INFO [LStr "Consumer stopped"] ] false 0 in
  stop Demo.env w = (Normal tt, w1)
  /\ isRunning w1 = false
  /\ stop Demo.env w1 = (Normal tt, w1).
Proof.
  cbv zeta. split; [reflexivity | ].
  exact (stop_idempotent Demo.env (mkWorld [] true 0) _ eq_refl).
Defined.

Lemma shutdown_after_startup_witness :
  let w := initial_world 0 in
  let w1 := snd (startConsumer Demo.env w) in
  startConsumer Demo.env w = (Normal tt, w1)
  /\ broker Demo.env (clock w1) ConsumerDisconnect = None
  /\ (exists body,
         health Demo.env w1 = (Normal body, w1)
         /\ own_prop body "status" = Some (VStr "healthy"))
  /\ exists w2,
      on_signal Demo.env "SIGTERM" w1 = (Exit 0, w2)
      /\ isRunning w2 = false
      /\ count (is_call ConsumerDisconnect) (trace w2)
         = S (count (is_call ConsumerDisconnect) (trace w1)).
Proof.
  cbv zeta. split; [reflexivity | ]. split; [reflexivity | ].
  exact (shutdown_after_startup Demo.env "SIGTERM" (initial_world 0)
           (snd (startConsumer Demo.env (initial_world 0))) eq_refl eq_refl).
Defined.
